(** * ASP Cranes CRM: quotation pricing, quotation read paths, forwarding endpoints

    A shallow embedding of the pricing function [calculateTotalRent] and the
    four quotation read accessors of the quotation service, and of the lead and
    quotation forwarding handlers of the Express API.

    JavaScript numbers are IEEE 754 binary64 values; they are modelled by the
    primitive floats of the kernel, so every arithmetic step below rounds
    exactly as the source does. *)

From Stdlib Require Import Floats ZArith Bool List.
From stdpp Require Import gmap strings list pretty.
From stdpp Require Import sorting.

Set Warnings "-inexact-float,-register-all".

(** ** The fragment of the JavaScript runtime the sources rely on *)

Module Js.

Local Open Scope float_scope.

(** ToBoolean on a number: [+0], [-0] and [NaN] are falsy. *)
Definition truthy (x : float) : bool := negb (is_zero x || is_nan x).

(** ToBoolean on a possibly absent number ([undefined] is falsy). *)
Definition truthyOpt (x : option float) : bool :=
  match x with
  | Some v => truthy v
  | None => false
  end.

(** [x || d] for a possibly absent number [x] and a number [d]. *)
Definition orElse (x : option float) (d : float) : float :=
  match x with
  | Some v => if truthy v then v else d
  | None => d
  end.

(** ToNumber on a possibly absent number: [undefined] becomes [NaN]. *)
Definition ToNumber (x : option float) : float :=
  match x with
  | Some v => v
  | None => nan
  end.

(** ToBoolean on a possibly absent string (the empty string is falsy). *)
Definition truthyStr (x : option string) : bool :=
  match x with
  | Some s => negb (String.eqb s "")
  | None => false
  end.

(** [x || d] for a possibly absent string. *)
Definition strOrElse (x : option string) (d : string) : string :=
  match x with
  | Some s => if String.eqb s "" then d else s
  | None => d
  end.

(** [x === lit] for a possibly absent string against a string literal. *)
Definition strictEq (x : option string) (lit : string) : bool :=
  match x with
  | Some s => String.eqb s lit
  | None => false
  end.

(** Exceptions: the TypeError of a property read on [null] or [undefined],
    which records the property, the error of a rejected store operation, and
    an error the code itself throws with [new Error(message)]. *)
Inductive Error : Type :=
| TypeError (reading : string)
| FirebaseError (operation : string)
| GenericError (message : string).

(** The completion of a computation: a value, or a thrown exception. *)
Inductive Completion (A : Type) : Type :=
| Normal (a : A)
| Throw (e : Error).
Arguments Normal {A} a.
Arguments Throw {A} e.

Definition bind {A B} (c : Completion A) (k : A -> Completion B) : Completion B :=
  match c with
  | Normal a => k a
  | Throw e => Throw e
  end.

(** Reading property [prop] of a reference that may be [null]/[undefined]. *)
Definition deref {A} (o : option A) (prop : string) : Completion A :=
  match o with
  | Some a => Normal a
  | None => Throw (TypeError prop)
  end.

(** [arr.forEach(cb)] where the callback updates one accumulator. *)
Fixpoint forEach {A S} (arr : list A) (cb : A -> S -> Completion S) (acc : S)
  : Completion S :=
  match arr with
  | [] => Normal acc
  | x :: rest => bind (cb x acc) (forEach rest cb)
  end.

End Js.

Notation "'let*' x ':=' c 'in' k" := (Js.bind c (fun x => k))
  (at level 10, x name, c at level 100, k at level 200).

(** ** Rent / quotation pricing: [calculateTotalRent] *)

Module Pricing.

Import Js.
Local Open Scope float_scope.

(** Modelled from the spec: the [SelectedMachine] entries of the
    [QuotationInputs] type (types/quotation is not part of the sources at
    hand); the fields are the ones the pricing code reads, a field that is
    absent at run time is [None]. *)
Module SelectedMachine.
Record t : Type := mk {
  name : option string;
  baseRate : option float;
  quantity : option float;
  runningCostPerKm : option float
}.
End SelectedMachine.

(** Modelled from the spec: the legacy single-equipment selection with its
    per-tier base rates, indexed by the order type. *)
Module Equipment.
Record t : Type := mk {
  id : option string;
  equipmentId : option string;
  name : option string;
  baseRates : option (gmap string float)
}.
End Equipment.

(** Modelled from the spec: the [QuotationInputs] type, every field optional
    as at run time. An entry of [selectedMachines] may be [null] ([None]). *)
Module QuotationInputs.
Record t : Type := mk {
  numberOfDays : option float;
  workingHours : option float;
  shift : option string;
  usage : option string;
  riskFactor : option string;
  orderType : option string;
  selectedEquipment : option Equipment.t;
  selectedMachines : option (list (option SelectedMachine.t));
  foodResources : option float;
  accomResources : option float;
  siteDistance : option float;
  mobDemob : option float;
  mobRelaxation : option float;
  runningCostPerKm : option float;
  extraCharge : option float;
  includeGst : option bool
}.
End QuotationInputs.
Import QuotationInputs.

(** The machines the [forEach] loops run over ([selectedMachines!]). *)
Definition machines (quotationData : QuotationInputs.t) : list (option SelectedMachine.t) :=
  default [] (selectedMachines quotationData).

(** [selectedMachines && selectedMachines.length > 0] as a condition. *)
Definition hasMachines (quotationData : QuotationInputs.t) : bool :=
  match selectedMachines quotationData with
  | Some (_ :: _) => true
  | _ => false
  end.

Definition days (quotationData : QuotationInputs.t) : float :=
  ToNumber (numberOfDays quotationData).

Definition isMonthly (quotationData : QuotationInputs.t) : bool :=
  25 <? days quotationData.

Definition effectiveDays (quotationData : QuotationInputs.t) : float :=
  if isMonthly quotationData then 26 else days quotationData.

(** [Number(quotationData.workingHours || 8)] *)
Definition workingHoursOf (quotationData : QuotationInputs.t) : float :=
  orElse (workingHours quotationData) 8.

Definition shiftMultiplier (quotationData : QuotationInputs.t) : float :=
  if strictEq (shift quotationData) "double" then 2 else 1.

(** [selectedEquipment?.baseRates]: an object, truthy when present. *)
Definition legacyBaseRates (quotationData : QuotationInputs.t) : option (gmap string float) :=
  match selectedEquipment quotationData with
  | Some eq => Equipment.baseRates eq
  | None => None
  end.

(** [baseRates[quotationData.orderType]]: an absent order type is the
    property key ["undefined"]; a key that is not there reads [undefined]. *)
Definition tierRate (rates : gmap string float) (quotationData : QuotationInputs.t) : float :=
  ToNumber (rates !! default "undefined"%string (orderType quotationData)).

(** The working cost of one entry, without the machine quantity. *)
Definition rateCost (monthly : bool) (hours eff mult machineBaseRate : float) : float :=
  if monthly then
    let hourlyRate := (machineBaseRate / 26) / hours in
    hourlyRate * hours * eff * mult
  else
    machineBaseRate * hours * eff * mult.

Definition workingCost (quotationData : QuotationInputs.t) : Completion float :=
  let monthly := isMonthly quotationData in
  let hours := workingHoursOf quotationData in
  let eff := effectiveDays quotationData in
  let mult := shiftMultiplier quotationData in
  if hasMachines quotationData then
    forEach (machines quotationData)
      (fun machine workingCost =>
         let* m := deref machine "baseRate" in
         let machineBaseRate := ToNumber (SelectedMachine.baseRate m) in
         let machineQuantity := ToNumber (SelectedMachine.quantity m) in
         let machineCost := rateCost monthly hours eff mult machineBaseRate * machineQuantity in
         Normal (workingCost + machineCost))
      0
  else
    match legacyBaseRates quotationData with
    | Some rates => Normal (rateCost monthly hours eff mult (tierRate rates quotationData))
    | None => Normal 0
    end.

Definition usagePercentage (quotationData : QuotationInputs.t) : float :=
  if strictEq (usage quotationData) "heavy" then 0.10 else 0.05.

Definition usageLoadFactor (quotationData : QuotationInputs.t) : Completion float :=
  if hasMachines quotationData then
    forEach (machines quotationData)
      (fun machine usageLoadFactor =>
         let* m := deref machine "baseRate" in
         Normal (usageLoadFactor
                 + ToNumber (SelectedMachine.baseRate m) * ToNumber (SelectedMachine.quantity m)
                   * usagePercentage quotationData))
      0
  else
    match legacyBaseRates quotationData with
    | Some rates => Normal (tierRate rates quotationData * usagePercentage quotationData)
    | None => Normal 0
    end.

Definition foodDailyRate : float := 2500 / 26.
Definition accomDailyRate : float := 4000 / 26.

Definition foodAccomCost (quotationData : QuotationInputs.t) : float :=
  if isMonthly quotationData then
    (orElse (foodResources quotationData) 0 * 2500)
    + (orElse (accomResources quotationData) 0 * 4000)
  else
    ((orElse (foodResources quotationData) 0 * foodDailyRate)
     + (orElse (accomResources quotationData) 0 * accomDailyRate))
    * effectiveDays quotationData.

Definition distance (quotationData : QuotationInputs.t) : float :=
  orElse (siteDistance quotationData) 0.
Definition trailerCost (quotationData : QuotationInputs.t) : float :=
  orElse (mobDemob quotationData) 0.
Definition mobRelaxationPercent (quotationData : QuotationInputs.t) : float :=
  orElse (mobRelaxation quotationData) 0.

(** The body of the per-machine mob-demob callback. *)
Definition machineMobDemobCost (dist trailer relax : float) (m : SelectedMachine.t) : float :=
  let runningCostPerKm := orElse (SelectedMachine.runningCostPerKm m) 0 in
  let distToSiteCost := dist * runningCostPerKm * 2 * ToNumber (SelectedMachine.quantity m) in
  let mobRelaxationAmount := (distToSiteCost * relax) / 100 in
  (distToSiteCost - mobRelaxationAmount) + (trailer * ToNumber (SelectedMachine.quantity m)).

(** The single-equipment mob-demob cost. *)
Definition singleMobDemobCost (dist trailer relax perKm : float) : float :=
  let distanceCost := dist * perKm * 2 in
  let relaxationAmount := (distanceCost * relax) / 100 in
  distanceCost + trailer - relaxationAmount.

Definition mobDemobCost (quotationData : QuotationInputs.t) : Completion float :=
  if hasMachines quotationData then
    forEach (machines quotationData)
      (fun machine mobDemobCost =>
         let* m := deref machine "runningCostPerKm" in
         Normal (mobDemobCost
                 + machineMobDemobCost (distance quotationData) (trailerCost quotationData)
                     (mobRelaxationPercent quotationData) m))
      0
  else
    Normal (singleMobDemobCost (distance quotationData) (trailerCost quotationData)
              (mobRelaxationPercent quotationData)
              (orElse (runningCostPerKm quotationData) 0)).

Definition riskPercentage (quotationData : QuotationInputs.t) : float :=
  if strictEq (riskFactor quotationData) "high" then 0.15
  else if strictEq (riskFactor quotationData) "medium" then 0.10
  else 0.05.

Definition riskAdjustment (quotationData : QuotationInputs.t) : Completion float :=
  if hasMachines quotationData then
    forEach (machines quotationData)
      (fun machine riskAdjustment =>
         let* m := deref machine "baseRate" in
         Normal (riskAdjustment
                 + ToNumber (SelectedMachine.baseRate m) * ToNumber (SelectedMachine.quantity m)
                   * riskPercentage quotationData))
      0
  else
    match legacyBaseRates quotationData with
    | Some rates => Normal (tierRate rates quotationData * riskPercentage quotationData)
    | None => Normal 0
    end.

Definition extraCharges (quotationData : QuotationInputs.t) : float :=
  orElse (extraCharge quotationData) 0.

(** The six terms of the subtotal, in the order the source adds them. *)
Definition subtotalOf (working foodAccom mob risk usageLoad extra : float) : float :=
  working + foodAccom + mob + risk + usageLoad + extra.

Definition gstAmount (quotationData : QuotationInputs.t) (subtotal : float) : float :=
  if default false (includeGst quotationData) then subtotal * 0.18 else 0.

(** The subtotal of a quotation, in the statement order of the source. *)
Definition subtotal (quotationData : QuotationInputs.t) : Completion float :=
  let* working := workingCost quotationData in
  let* usageLoad := usageLoadFactor quotationData in
  let foodAccom := foodAccomCost quotationData in
  let* mob := mobDemobCost quotationData in
  let* risk := riskAdjustment quotationData in
  Normal (subtotalOf working foodAccom mob risk usageLoad (extraCharges quotationData)).

(** The statements of the [try] block. The argument itself may be [null] or
    [undefined] at run time ([None]); its first property read then throws. *)
Definition tryBlock (input : option QuotationInputs.t) : Completion float :=
  let* quotationData := deref input "numberOfDays" in
  if negb (truthyOpt (numberOfDays quotationData)) then Normal 0
  else
    let* sub := subtotal quotationData in
    let totalAmount := sub + gstAmount quotationData sub in
    Normal totalAmount.

(** One line written with [console.error]. *)
Record LogLine : Type := mkLog { message : string; error : Error }.

(** [calculateTotalRent]: the returned number and the lines it wrote to the
    console. The [catch] clause logs the exception and returns [0]. *)
Definition calculateTotalRent (input : option QuotationInputs.t) : float * list LogLine :=
  match tryBlock input with
  | Normal totalAmount => (totalAmount, [])
  | Throw e => (0, [mkLog "Error calculating total rent:" e])
  end.

(** *** Inputs that differ from a given one in exactly one field *)

Definition withEquipment (e : option Equipment.t) (q : QuotationInputs.t) : QuotationInputs.t :=
  {| numberOfDays := numberOfDays q; workingHours := workingHours q; shift := shift q;
     usage := usage q; riskFactor := riskFactor q; orderType := orderType q;
     selectedEquipment := e;
     selectedMachines := selectedMachines q; foodResources := foodResources q;
     accomResources := accomResources q; siteDistance := siteDistance q;
     mobDemob := mobDemob q; mobRelaxation := mobRelaxation q;
     runningCostPerKm := runningCostPerKm q; extraCharge := extraCharge q;
     includeGst := includeGst q |}.

Definition withDays (d : option float) (q : QuotationInputs.t) : QuotationInputs.t :=
  {| numberOfDays := d;
     workingHours := workingHours q; shift := shift q;
     usage := usage q; riskFactor := riskFactor q; orderType := orderType q;
     selectedEquipment := selectedEquipment q;
     selectedMachines := selectedMachines q; foodResources := foodResources q;
     accomResources := accomResources q; siteDistance := siteDistance q;
     mobDemob := mobDemob q; mobRelaxation := mobRelaxation q;
     runningCostPerKm := runningCostPerKm q; extraCharge := extraCharge q;
     includeGst := includeGst q |}.

Definition withWorkingHours (h : option float) (q : QuotationInputs.t) : QuotationInputs.t :=
  {| numberOfDays := numberOfDays q;
     workingHours := h;
     shift := shift q;
     usage := usage q; riskFactor := riskFactor q; orderType := orderType q;
     selectedEquipment := selectedEquipment q;
     selectedMachines := selectedMachines q; foodResources := foodResources q;
     accomResources := accomResources q; siteDistance := siteDistance q;
     mobDemob := mobDemob q; mobRelaxation := mobRelaxation q;
     runningCostPerKm := runningCostPerKm q; extraCharge := extraCharge q;
     includeGst := includeGst q |}.

End Pricing.

(** ** Quotation read paths: record assembly and legacy field backfill *)

Module Quotations.

Import Js.
Local Open Scope float_scope.
Local Open Scope string_scope.

Module Contact.
Record t : Type := mk {
  name : option string;
  email : option string;
  phone : option string;
  company : option string;
  address : option string;
  designation : option string
}.
End Contact.

(** Modelled from the spec: the [Quotation] type (types/quotation is not
    part of the sources at hand), with the fields the read paths name. It
    serves both for a stored document, where an absent field is [None], and
    for what an accessor returns, where [None] is a field read as
    [undefined]. *)
Module Quotation.
Record t : Type := mk {
  id : option string;
  customerContact : option Contact.t;
  customerName : option string;
  selectedEquipment : option Pricing.Equipment.t;
  selectedMachines : option (list (option Pricing.SelectedMachine.t));
  machineType : option string;
  orderType : option string;
  numberOfDays : option float;
  workingHours : option float;
  foodResources : option float;
  accomResources : option float;
  siteDistance : option float;
  usage : option string;
  riskFactor : option string;
  extraCharge : option float;
  incidentalCharges : option (list string);
  otherFactorsCharge : option float;
  billing : option string;
  baseRate : option float;
  includeGst : option bool;
  shift : option string;
  dayNight : option string;
  mobDemob : option float;
  mobRelaxation : option float;
  runningCostPerKm : option float;
  version : option float;
  createdAt : option string;
  updatedAt : option string;
  createdBy : option string;
  status : option string;
  totalRent : option float;
  leadId : option string;
  customerId : option string;
  otherFactors : option (list string);
  dealType : option string;
  sundayWorking : option string
}.
End Quotation.
Import Quotation.

(** A document snapshot: [doc.id] and [doc.data()]. *)
Record DocSnap : Type := mkSnap { docId : string; data : Quotation.t }.

(** [a || b] on possibly absent strings, the result still possibly absent. *)
Definition strOr (a b : option string) : option string :=
  if truthyStr a then a else b.

(** [data.customerContact?.f] *)
Definition contactField (f : Contact.t -> option string) (d : Quotation.t) : option string :=
  match customerContact d with
  | Some c => f c
  | None => None
  end.

(** [data.selectedEquipment?.f] *)
Definition equipmentField {A} (f : Pricing.Equipment.t -> option A) (d : Quotation.t) : option A :=
  match selectedEquipment d with
  | Some e => f e
  | None => None
  end.

(** The [customerContact] object both defaulting paths build. *)
Definition contactOf (d : Quotation.t) : Contact.t :=
  {| Contact.name :=
       Some (strOrElse (strOr (contactField Contact.name d) (customerName d)) "Unknown");
     Contact.email := Some (strOrElse (contactField Contact.email d) "");
     Contact.phone := Some (strOrElse (contactField Contact.phone d) "");
     Contact.company := Some (strOrElse (contactField Contact.company d) "");
     Contact.address := Some (strOrElse (contactField Contact.address d) "");
     Contact.designation := Some (strOrElse (contactField Contact.designation d) "") |}.

Definition zeroRates : gmap string float :=
  <["micro" := 0]> (<["small" := 0]> (<["monthly" := 0]> (<["yearly" := 0]> ∅))).

(** The [selectedEquipment] object both defaulting paths build, around the
    display name each of them computes. *)
Definition equipmentOf (d : Quotation.t) (displayName : option string) : Pricing.Equipment.t :=
  {| Pricing.Equipment.id := Some (strOrElse (equipmentField Pricing.Equipment.id d) "");
     Pricing.Equipment.equipmentId :=
       Some (strOrElse (equipmentField Pricing.Equipment.equipmentId d) "");
     Pricing.Equipment.name := displayName;
     Pricing.Equipment.baseRates :=
       Some (default zeroRates (equipmentField Pricing.Equipment.baseRates d)) |}.

(** The template literal [`${n} machines selected`]. *)
Definition machinesSelected (n : nat) : string := pretty n ++ " machines selected".

(** [{ id: doc.id, ...data }]: a stored [id] field overrides the document id. *)
Definition spreadId (snap : DocSnap) : option string :=
  Some (default (docId snap) (id (data snap))).

(** The display name computed by [getQuotations]. *)
Definition listDisplayName (d : Quotation.t) : option string :=
  match selectedMachines d with
  | Some (m :: rest) => Some (machinesSelected (length (m :: rest)))
  | _ => Some (strOrElse (equipmentField Pricing.Equipment.name d) "Unknown Equipment")
  end.

(** The callback of [snapshot.docs.map] in [getQuotations]; [now] is the
    value of [new Date().toISOString()]. *)
Definition listEntry (now : string) (snap : DocSnap) : Quotation.t :=
  let d := data snap in
  {| id := spreadId snap;
     customerContact := Some (contactOf d);
     customerName := customerName d;
     selectedEquipment := Some (equipmentOf d (listDisplayName d));
     selectedMachines := Some (default [] (selectedMachines d));
     machineType := machineType d;
     orderType := orderType d;
     numberOfDays := numberOfDays d;
     workingHours := workingHours d;
     foodResources := foodResources d;
     accomResources := accomResources d;
     siteDistance := siteDistance d;
     usage := usage d;
     riskFactor := riskFactor d;
     extraCharge := extraCharge d;
     incidentalCharges := incidentalCharges d;
     otherFactorsCharge := otherFactorsCharge d;
     billing := billing d;
     baseRate := baseRate d;
     includeGst := includeGst d;
     shift := shift d;
     dayNight := dayNight d;
     mobDemob := mobDemob d;
     mobRelaxation := mobRelaxation d;
     runningCostPerKm := runningCostPerKm d;
     version := Some (orElse (version d) 1);
     createdAt := Some (strOrElse (createdAt d) now);
     updatedAt := Some (strOrElse (updatedAt d) now);
     createdBy := createdBy d;
     status := Some (strOrElse (status d) "draft");
     totalRent := Some (orElse (totalRent d) 0);
     leadId := leadId d;
     customerId := customerId d;
     otherFactors := otherFactors d;
     dealType := dealType d;
     sundayWorking := sundayWorking d |}.

(** [getQuotations], on the snapshot the store returned. *)
Definition getQuotations (now : string) (docs : list DocSnap) : list Quotation.t :=
  map (listEntry now) docs.

(** [{ id: doc.id, ...doc.data() }]: the callback of the by-lead and the
    by-customer accessors. *)
Definition rawEntry (snap : DocSnap) : Quotation.t :=
  let d := data snap in
  {| id := spreadId snap;
     customerContact := customerContact d;
     customerName := customerName d;
     selectedEquipment := selectedEquipment d;
     selectedMachines := selectedMachines d;
     machineType := machineType d;
     orderType := orderType d;
     numberOfDays := numberOfDays d;
     workingHours := workingHours d;
     foodResources := foodResources d;
     accomResources := accomResources d;
     siteDistance := siteDistance d;
     usage := usage d;
     riskFactor := riskFactor d;
     extraCharge := extraCharge d;
     incidentalCharges := incidentalCharges d;
     otherFactorsCharge := otherFactorsCharge d;
     billing := billing d;
     baseRate := baseRate d;
     includeGst := includeGst d;
     shift := shift d;
     dayNight := dayNight d;
     mobDemob := mobDemob d;
     mobRelaxation := mobRelaxation d;
     runningCostPerKm := runningCostPerKm d;
     version := version d;
     createdAt := createdAt d;
     updatedAt := updatedAt d;
     createdBy := createdBy d;
     status := status d;
     totalRent := totalRent d;
     leadId := leadId d;
     customerId := customerId d;
     otherFactors := otherFactors d;
     dealType := dealType d;
     sundayWorking := sundayWorking d |}.

(** [getQuotationsForLead] and [getQuotationsForCustomer], each on the
    snapshot its query returned. *)
Definition getQuotationsForLead (docs : list DocSnap) : list Quotation.t :=
  map rawEntry docs.

Definition getQuotationsForCustomer (docs : list DocSnap) : list Quotation.t :=
  map rawEntry docs.

(** The display name computed by [getQuotationById]; reading the name of a
    [null] single entry throws. *)
Definition equipmentName (d : Quotation.t) : Completion (option string) :=
  let selectedMachines := default [] (selectedMachines d) in
  let equipmentName := Some (strOrElse (equipmentField Pricing.Equipment.name d) "Unknown Equipment") in
  if decide (1 < length selectedMachines)%nat then
    Normal (Some (machinesSelected (length selectedMachines)))
  else if decide (length selectedMachines = 1)%nat then
    let* m := deref (mjoin (head selectedMachines)) "name" in
    Normal (Pricing.SelectedMachine.name m)
  else Normal equipmentName.

(** The object [getQuotationById] returns for an existing document. *)
Definition byIdEntry (now : string) (snap : DocSnap) : Completion Quotation.t :=
  let d := data snap in
  let* equipmentName := equipmentName d in
  Normal
    {| id := spreadId snap;
       customerContact := Some (contactOf d);
       selectedEquipment := Some (equipmentOf d equipmentName);
       selectedMachines := Some (default [] (selectedMachines d));
       machineType := Some (strOrElse (machineType d) "");
       orderType := Some (strOrElse (orderType d) "micro");
       numberOfDays := Some (orElse (numberOfDays d) 0);
       workingHours := Some (orElse (workingHours d) 8);
       foodResources := Some (orElse (foodResources d) 0);
       accomResources := Some (orElse (accomResources d) 0);
       siteDistance := Some (orElse (siteDistance d) 0);
       usage := Some (strOrElse (usage d) "normal");
       riskFactor := Some (strOrElse (riskFactor d) "low");
       extraCharge := Some (orElse (extraCharge d) 0);
       incidentalCharges := Some (default [] (incidentalCharges d));
       otherFactorsCharge := Some (orElse (otherFactorsCharge d) 0);
       billing := Some (strOrElse (billing d) "gst");
       baseRate := Some (orElse (baseRate d) 0);
       includeGst := Some (default true (includeGst d));
       shift := Some (strOrElse (shift d) "single");
       dayNight := Some (strOrElse (dayNight d) "day");
       mobDemob := Some (orElse (mobDemob d) 0);
       mobRelaxation := Some (orElse (mobRelaxation d) 0);
       runningCostPerKm := Some (orElse (runningCostPerKm d) 0);
       version := Some (orElse (version d) 1);
       createdAt := Some (strOrElse (createdAt d) now);
       updatedAt := Some (strOrElse (updatedAt d) now);
       createdBy := Some (strOrElse (createdBy d) "system");
       status := Some (strOrElse (status d) "draft");
       totalRent := Some (orElse (totalRent d) 0);
       leadId := Some (strOrElse (leadId d) "");
       customerId := Some (strOrElse (customerId d) "");
       customerName := Some (strOrElse (customerName d) "Unknown");
       otherFactors := Some (default [] (otherFactors d));
       dealType := dealType d;
       sundayWorking := sundayWorking d |}.

(** [getQuotationById], on the snapshot of the document ([None] when it
    does not exist); the [catch] clause rethrows. *)
Definition getQuotationById (now : string) (docSnap : option DocSnap)
  : Completion (option Quotation.t) :=
  match docSnap with
  | None => Normal None
  | Some snap => let* q := byIdEntry now snap in Normal (Some q)
  end.

(** [q.selectedEquipment?.name]: the display name a caller reads. *)
Definition displayNameOf (q : Quotation.t) : option string :=
  equipmentField Pricing.Equipment.name q.

End Quotations.

(** ** The lead and quotation forwarding endpoints *)

Module Api.

Local Open Scope string_scope.

(** The values of a parsed JSON request body and of a stored document;
    a [Date] object carries its ISO rendering. A property that is not in an
    object reads [undefined], modelled by [None]. *)
Inductive JsVal : Type :=
| JNull
| JBool (b : bool)
| JNum (x : float)
| JStr (s : string)
| JDate (iso : string)
| JArr (elems : list JsVal)
| JObj (props : gmap string JsVal).

(** ToBoolean. *)
Definition truthy (v : option JsVal) : bool :=
  match v with
  | None => false
  | Some JNull => false
  | Some (JBool b) => b
  | Some (JNum x) => Js.truthy x
  | Some (JStr s) => negb (String.eqb s "")
  | Some (JDate _) => true
  | Some (JArr _) => true
  | Some (JObj _) => true
  end.

(** [v[field]] for the field names the handlers use: an own property of an
    object, [undefined] on every other non-null value. *)
Definition getProp (v : JsVal) (field : string) : option JsVal :=
  match v with
  | JObj props => props !! field
  | _ => None
  end.

(** [if (!o.field) o.field = d] on the properties of an object. *)
Definition setDefault (field : string) (d : JsVal) (props : gmap string JsVal)
  : gmap string JsVal :=
  if negb (truthy (props !! field)) then <[field := d]> props else props.

(** The store: the documents of each collection, newest last, each with the
    identifier the store generated for it. *)
Definition Store : Type := gmap string (list (string * gmap string JsVal)).

(** [addDoc(collection(db, coll), doc)]. The store is an external service:
    [generated] is the identifier it answers with, [None] when it rejects
    the write. *)
Definition addDoc (coll : string) (doc : gmap string JsVal) (generated : option string)
    (db : Store) : Js.Completion (string * Store) :=
  match generated with
  | Some newId => Js.Normal (newId, <[coll := (default [] (db !! coll) ++ [(newId, doc)])%list]> db)
  | None => Js.Throw (Js.FirebaseError "addDoc")
  end.

(** [res.status(code).json(body)] *)
Record Response : Type := mkResponse { status : nat; json : gmap string JsVal }.

Definition errorResponse (code : nat) (msg : string) : Response :=
  mkResponse code {[ "error" := JStr msg ]}.

Definition created (msg : string) (newId : string) : Response :=
  mkResponse 201
    (<["success" := JBool true]> (<["message" := JStr msg]> (<["id" := JStr newId]> ∅))).

(** The validation loop: the first required field whose value is falsy. *)
Fixpoint firstMissing (requiredFields : list string) (body : JsVal) : option string :=
  match requiredFields with
  | [] => None
  | field :: rest =>
      if negb (truthy (getProp body field)) then Some field
      else firstMissing rest body
  end.

Definition leadRequiredFields : list string :=
  ["customerName"; "equipmentNeeded"; "contactInfo"].

Definition quotationRequiredFields : list string :=
  ["leadId"; "equipmentDetails"; "totalPrice"].

(** [handleLeadSubmission]: the response and the store afterwards. [now] is
    the value of [new Date()]. A truthy body that is not an object has no
    truthy property and never passes the validation loop; were it to, the
    property assignment on a primitive would throw in module code, into the
    [catch] clause. *)
Definition handleLeadSubmission (body : option JsVal) (now : string)
    (generated : option string) (db : Store) : Response * Store :=
  if negb (truthy body) then (errorResponse 400 "Lead data is required", db)
  else
    let leadData := default JNull body in
    match firstMissing leadRequiredFields leadData with
    | Some field => (errorResponse 400 ("Missing required field: " ++ field), db)
    | None =>
        match leadData with
        | JObj props =>
            let props := setDefault "timestamp" (JDate now) props in
            let props := setDefault "status" (JStr "new") props in
            let props := setDefault "source" (JStr "AI Assistant") props in
            match addDoc "leads" props generated db with
            | Js.Normal (newId, db') => (created "Lead created successfully" newId, db')
            | Js.Throw _ => (errorResponse 500 "Failed to create lead", db)
            end
        | _ => (errorResponse 500 "Failed to create lead", db)
        end
    end.

(** [handleQuotationSubmission]. *)
Definition handleQuotationSubmission (body : option JsVal) (now : string)
    (generated : option string) (db : Store) : Response * Store :=
  if negb (truthy body) then (errorResponse 400 "Quotation data is required", db)
  else
    let quotationData := default JNull body in
    match firstMissing quotationRequiredFields quotationData with
    | Some field => (errorResponse 400 ("Missing required field: " ++ field), db)
    | None =>
        match quotationData with
        | JObj props =>
            let props := setDefault "createdAt" (JDate now) props in
            let props := setDefault "status" (JStr "draft") props in
            match addDoc "quotations" props generated db with
            | Js.Normal (newId, db') => (created "Quotation created successfully" newId, db')
            | Js.Throw _ => (errorResponse 500 "Failed to create quotation", db)
            end
        | _ => (errorResponse 500 "Failed to create quotation", db)
        end
    end.

(** The document each handler writes: the submitted properties with the
    optional ones defaulted where they are absent or falsy. *)
Definition leadDocument (now : string) (props : gmap string JsVal) : gmap string JsVal :=
  setDefault "source" (JStr "AI Assistant")
    (setDefault "status" (JStr "new") (setDefault "timestamp" (JDate now) props)).

Definition quotationDocument (now : string) (props : gmap string JsVal)
  : gmap string JsVal :=
  setDefault "status" (JStr "draft") (setDefault "createdAt" (JDate now) props).

End Api.

(** ** Concrete inputs used to exercise the statements *)

Module Examples.

Import Js Pricing Pricing.QuotationInputs.
Local Open Scope float_scope.
Local Open Scope string_scope.

Definition legacyCrane : Equipment.t :=
  Equipment.mk (Some "eq-1") (Some "EQ0001") (Some "Tower Crane")
    (Some (<["micro" := 1200]> (<["small" := 1000]> (<["monthly" := 260000]>
           (<["yearly" := 240000]> ∅))))).

Definition craneA : SelectedMachine.t :=
  SelectedMachine.mk (Some "Crane A") (Some 1000) (Some 2) (Some 10).

Definition craneB : SelectedMachine.t :=
  SelectedMachine.mk (Some "Crane B") (Some 1500) (Some 1) None.

(** Three days, two selected machines and a populated legacy selection. *)
Definition fleetQuote : QuotationInputs.t :=
  {| numberOfDays := Some 3; workingHours := Some 8; shift := Some "single";
     usage := Some "normal"; riskFactor := Some "low"; orderType := Some "micro";
     selectedEquipment := Some legacyCrane;
     selectedMachines := Some [Some craneA; Some craneB];
     foodResources := Some 2; accomResources := Some 1; siteDistance := Some 40;
     mobDemob := Some 5000; mobRelaxation := Some 10; runningCostPerKm := Some 12;
     extraCharge := Some 250; includeGst := Some true |}.

(** Thirty days on the monthly tier of the legacy selection, the working
    hours given as 0. *)
Definition monthlyQuote : QuotationInputs.t :=
  {| numberOfDays := Some 30; workingHours := Some 0; shift := Some "single";
     usage := Some "normal"; riskFactor := Some "low"; orderType := Some "monthly";
     selectedEquipment := Some legacyCrane; selectedMachines := None;
     foodResources := None; accomResources := None; siteDistance := None;
     mobDemob := None; mobRelaxation := None; runningCostPerKm := None;
     extraCharge := None; includeGst := Some false |}.

(** The mobilization example: distance 100, 10 per km, 50 percent
    relaxation, no trailer fee, single-equipment mode. *)
Definition mobQuote : QuotationInputs.t :=
  {| numberOfDays := Some 1; workingHours := None; shift := None; usage := None;
     riskFactor := None; orderType := None; selectedEquipment := None;
     selectedMachines := None; foodResources := None; accomResources := None;
     siteDistance := Some 100; mobDemob := Some 0; mobRelaxation := Some 50;
     runningCostPerKm := Some 10; extraCharge := None; includeGst := None |}.

(** One day, nothing selected, an extra charge of 10, GST included. *)
Definition tenQuote : QuotationInputs.t :=
  {| numberOfDays := Some 1; workingHours := None; shift := None; usage := None;
     riskFactor := None; orderType := None; selectedEquipment := None;
     selectedMachines := None; foodResources := None; accomResources := None;
     siteDistance := None; mobDemob := None; mobRelaxation := None;
     runningCostPerKm := None; extraCharge := Some 10; includeGst := Some true |}.

(** A machine list whose only entry is [null]. *)
Definition nullMachineQuote : QuotationInputs.t :=
  {| numberOfDays := Some 1; workingHours := None; shift := None; usage := None;
     riskFactor := None; orderType := None; selectedEquipment := None;
     selectedMachines := Some [None]; foodResources := None; accomResources := None;
     siteDistance := None; mobDemob := None; mobRelaxation := None;
     runningCostPerKm := None; extraCharge := None; includeGst := None |}.

(** A stored document that only names its lead. *)
Definition bareSnap : Quotations.DocSnap :=
  Quotations.mkSnap "q-1"
    (Quotations.Quotation.mk None None None None None None None None None None None None
       None None None None None None None None None None None None None None None None
       None None None (Some "lead-7") None None None None).

(** A stored document with exactly one selected machine, named Crane A. *)
Definition oneMachineSnap : Quotations.DocSnap :=
  Quotations.mkSnap "q-2"
    (Quotations.Quotation.mk None None None None (Some [Some craneA]) None None None None
       None None None None None None None None None None None None None None None None
       None None None None None None (Some "lead-7") None None None None).

(** A quotation submission whose three required fields are all there, the
    total price being 0. *)
Definition zeroPriceBody : Api.JsVal :=
  Api.JObj (<["leadId" := Api.JStr "lead-7"]>
            (<["equipmentDetails" := Api.JStr "Tower Crane"]>
             (<["totalPrice" := Api.JNum 0]> ∅))).

(** A lead submission with its three required fields and nothing else. *)
Definition leadBody : Api.JsVal :=
  Api.JObj (<["customerName" := Api.JStr "Asha"]>
            (<["equipmentNeeded" := Api.JStr "Tower Crane"]>
             (<["contactInfo" := Api.JStr "asha@example.com"]> ∅))).

(** A lead submission without [equipmentNeeded] and without [contactInfo]. *)
Definition shortLeadBody : Api.JsVal :=
  Api.JObj (<["customerName" := Api.JStr "Asha"]> ∅).

End Examples.

(** ** Quotation creation: [createQuotation] and its write to the linked deal *)

Module Creation.

Import Js Quotations Quotations.Quotation.
Local Open Scope string_scope.

(** The fields of a quotation that [calculateTotalRent] reads: the function
    receives the quotation object itself. *)
Definition inputsOf (q : Quotation.t) : Pricing.QuotationInputs.t :=
  {| Pricing.QuotationInputs.numberOfDays := numberOfDays q;
     Pricing.QuotationInputs.workingHours := workingHours q;
     Pricing.QuotationInputs.shift := shift q;
     Pricing.QuotationInputs.usage := usage q;
     Pricing.QuotationInputs.riskFactor := riskFactor q;
     Pricing.QuotationInputs.orderType := orderType q;
     Pricing.QuotationInputs.selectedEquipment := selectedEquipment q;
     Pricing.QuotationInputs.selectedMachines := selectedMachines q;
     Pricing.QuotationInputs.foodResources := foodResources q;
     Pricing.QuotationInputs.accomResources := accomResources q;
     Pricing.QuotationInputs.siteDistance := siteDistance q;
     Pricing.QuotationInputs.mobDemob := mobDemob q;
     Pricing.QuotationInputs.mobRelaxation := mobRelaxation q;
     Pricing.QuotationInputs.runningCostPerKm := runningCostPerKm q;
     Pricing.QuotationInputs.extraCharge := extraCharge q;
     Pricing.QuotationInputs.includeGst := includeGst q |}.

(** [{ ...quotationData, createdAt: timestamp, updatedAt: timestamp,
       totalRent: calculateTotalRent(quotationData) }] *)
Definition newQuotation (quotationData : Quotation.t) (timestamp : string) (total : float)
  : Quotation.t :=
  {| id := id quotationData;
     customerContact := customerContact quotationData;
     customerName := customerName quotationData;
     selectedEquipment := selectedEquipment quotationData;
     selectedMachines := selectedMachines quotationData;
     machineType := machineType quotationData;
     orderType := orderType quotationData;
     numberOfDays := numberOfDays quotationData;
     workingHours := workingHours quotationData;
     foodResources := foodResources quotationData;
     accomResources := accomResources quotationData;
     siteDistance := siteDistance quotationData;
     usage := usage quotationData;
     riskFactor := riskFactor quotationData;
     extraCharge := extraCharge quotationData;
     incidentalCharges := incidentalCharges quotationData;
     otherFactorsCharge := otherFactorsCharge quotationData;
     billing := billing quotationData;
     baseRate := baseRate quotationData;
     includeGst := includeGst quotationData;
     shift := shift quotationData;
     dayNight := dayNight quotationData;
     mobDemob := mobDemob quotationData;
     mobRelaxation := mobRelaxation quotationData;
     runningCostPerKm := runningCostPerKm quotationData;
     version := version quotationData;
     createdAt := Some timestamp;
     updatedAt := Some timestamp;
     createdBy := createdBy quotationData;
     status := status quotationData;
     totalRent := Some total;
     leadId := leadId quotationData;
     customerId := customerId quotationData;
     otherFactors := otherFactors quotationData;
     dealType := dealType quotationData;
     sundayWorking := sundayWorking quotationData |}.

(** [{ id: docRef.id, ...newQuotation }]: what the caller gets back. *)
Definition withId (newId : string) (q : Quotation.t) : Quotation.t :=
  rawEntry (mkSnap newId q).

(** The two collections the function touches: the quotation documents,
    oldest first, and the deal documents by identifier. *)
Record Db : Type := mkDb {
  quotations : list DocSnap;
  deals : gmap string (gmap string Api.JsVal)
}.

(** [addDoc(quotationsCollection, doc)]: the store answers with the
    identifier it generated, or rejects the write ([None]). *)
Definition addQuotation (doc : Quotation.t) (generated : option string) (db : Db)
  : Completion (string * Db) :=
  match generated with
  | Some newId =>
      Normal (newId, mkDb (quotations db ++ [mkSnap newId doc]) (deals db))
  | None => Throw (FirebaseError "addDoc")
  end.

(** [updateDoc(doc(db, 'deals', dealId), { value, updatedAt })]: the two
    fields are merged into the deal; the store rejects the update of a
    document that does not exist, and may reject any other ([accepted]). *)
Definition updateDeal (dealId : string) (value : float) (timestamp : string)
    (accepted : bool) (db : Db) : Completion Db :=
  match deals db !! dealId with
  | Some deal =>
      if accepted then
        Normal (mkDb (quotations db)
                  (<[dealId := <["updatedAt" := Api.JStr timestamp]>
                                 (<["value" := Api.JNum value]> deal)]> (deals db)))
      else Throw (FirebaseError "updateDoc")
  | None => Throw (FirebaseError "updateDoc")
  end.

(** What a call leaves behind: its completion, the store, and the lines it
    wrote to the error console. *)
Record Run (A : Type) : Type := mkRun {
  completion : Completion A;
  store : Db;
  console : list Pricing.LogLine
}.
Arguments mkRun {A} _ _ _.
Arguments completion {A} _.
Arguments store {A} _.
Arguments console {A} _.

(** [createQuotation]. [timestamp] is [new Date().toISOString()]; [generated]
    and [accepted] are the store's answers to the two writes. The [catch]
    clause logs the error and rethrows it. *)
Definition createQuotation (quotationData : Quotation.t) (timestamp : string)
    (generated : option string) (accepted : bool) (db : Db) : Run Quotation.t :=
  let (total, priced) := Pricing.calculateTotalRent (Some (inputsOf quotationData)) in
  let newQuotation := newQuotation quotationData timestamp total in
  match addQuotation newQuotation generated db with
  | Throw e => mkRun (Throw e) db (priced ++ [Pricing.mkLog "Error creating quotation:" e])
  | Normal (newId, db1) =>
      if truthyStr (leadId quotationData) then
        match updateDeal (default "" (leadId quotationData)) total timestamp accepted db1 with
        | Throw e =>
            mkRun (Throw e) db1 (priced ++ [Pricing.mkLog "Error creating quotation:" e])
        | Normal db2 => mkRun (Normal (withId newId newQuotation)) db2 priced
        end
      else mkRun (Normal (withId newId newQuotation)) db1 priced
  end.

(** The total a new quotation is priced at: [calculateTotalRent(quotationData)]. *)
Definition priceOf (quotationData : Quotation.t) : float :=
  fst (Pricing.calculateTotalRent (Some (inputsOf quotationData))).

(** [getDoc(doc(quotationsCollection, id))]: the snapshot of a document. *)
Definition findQuotation (docIdent : string) (db : Db) : option DocSnap :=
  List.find (fun snap => String.eqb (docId snap) docIdent) (quotations db).

End Creation.

(** ** Quotation update: [updateQuotation] *)

Module Update.

Import Js Quotations Quotations.Quotation Creation.
Local Open Scope string_scope.

(** What [getDealById] comes back with: no deal, a deal with or without its
    [customer] object, or a rejected read. *)
Inductive DealLookup : Type :=
| NoDeal
| Deal (customer : option Contact.t)
| LookupRejected.

(** One field of an update: a field the patch has replaces the stored one. *)
Definition mergeField {A} (patch stored : option A) : option A :=
  match patch with
  | Some v => Some v
  | None => stored
  end.

(** [updateDoc(ref, patch)] on one document: the top-level fields of the
    patch replace the stored ones, the others stay. *)
Definition mergeDoc (patch stored : Quotation.t) : Quotation.t :=
  {| id := mergeField (id patch) (id stored);
     customerContact := mergeField (customerContact patch) (customerContact stored);
     customerName := mergeField (customerName patch) (customerName stored);
     selectedEquipment := mergeField (selectedEquipment patch) (selectedEquipment stored);
     selectedMachines := mergeField (selectedMachines patch) (selectedMachines stored);
     machineType := mergeField (machineType patch) (machineType stored);
     orderType := mergeField (orderType patch) (orderType stored);
     numberOfDays := mergeField (numberOfDays patch) (numberOfDays stored);
     workingHours := mergeField (workingHours patch) (workingHours stored);
     foodResources := mergeField (foodResources patch) (foodResources stored);
     accomResources := mergeField (accomResources patch) (accomResources stored);
     siteDistance := mergeField (siteDistance patch) (siteDistance stored);
     usage := mergeField (usage patch) (usage stored);
     riskFactor := mergeField (riskFactor patch) (riskFactor stored);
     extraCharge := mergeField (extraCharge patch) (extraCharge stored);
     incidentalCharges := mergeField (incidentalCharges patch) (incidentalCharges stored);
     otherFactorsCharge := mergeField (otherFactorsCharge patch) (otherFactorsCharge stored);
     billing := mergeField (billing patch) (billing stored);
     baseRate := mergeField (baseRate patch) (baseRate stored);
     includeGst := mergeField (includeGst patch) (includeGst stored);
     shift := mergeField (shift patch) (shift stored);
     dayNight := mergeField (dayNight patch) (dayNight stored);
     mobDemob := mergeField (mobDemob patch) (mobDemob stored);
     mobRelaxation := mergeField (mobRelaxation patch) (mobRelaxation stored);
     runningCostPerKm := mergeField (runningCostPerKm patch) (runningCostPerKm stored);
     version := mergeField (version patch) (version stored);
     createdAt := mergeField (createdAt patch) (createdAt stored);
     updatedAt := mergeField (updatedAt patch) (updatedAt stored);
     createdBy := mergeField (createdBy patch) (createdBy stored);
     status := mergeField (status patch) (status stored);
     totalRent := mergeField (totalRent patch) (totalRent stored);
     leadId := mergeField (leadId patch) (leadId stored);
     customerId := mergeField (customerId patch) (customerId stored);
     otherFactors := mergeField (otherFactors patch) (otherFactors stored);
     dealType := mergeField (dealType patch) (dealType stored);
     sundayWorking := mergeField (sundayWorking patch) (sundayWorking stored) |}.

(** [quotationData.customerContact = { ... }] *)
Definition withContact (c : option Contact.t) (q : Quotation.t) : Quotation.t :=
  {| id := id q;
     customerContact := c;
     customerName := customerName q;
     selectedEquipment := selectedEquipment q;
     selectedMachines := selectedMachines q;
     machineType := machineType q;
     orderType := orderType q;
     numberOfDays := numberOfDays q;
     workingHours := workingHours q;
     foodResources := foodResources q;
     accomResources := accomResources q;
     siteDistance := siteDistance q;
     usage := usage q;
     riskFactor := riskFactor q;
     extraCharge := extraCharge q;
     incidentalCharges := incidentalCharges q;
     otherFactorsCharge := otherFactorsCharge q;
     billing := billing q;
     baseRate := baseRate q;
     includeGst := includeGst q;
     shift := shift q;
     dayNight := dayNight q;
     mobDemob := mobDemob q;
     mobRelaxation := mobRelaxation q;
     runningCostPerKm := runningCostPerKm q;
     version := version q;
     createdAt := createdAt q;
     updatedAt := updatedAt q;
     createdBy := createdBy q;
     status := status q;
     totalRent := totalRent q;
     leadId := leadId q;
     customerId := customerId q;
     otherFactors := otherFactors q;
     dealType := dealType q;
     sundayWorking := sundayWorking q |}.

(** [{ ...quotationData, updatedAt: new Date().toISOString() }] *)
Definition withUpdatedAt (now : string) (q : Quotation.t) : Quotation.t :=
  {| id := id q;
     customerContact := customerContact q;
     customerName := customerName q;
     selectedEquipment := selectedEquipment q;
     selectedMachines := selectedMachines q;
     machineType := machineType q;
     orderType := orderType q;
     numberOfDays := numberOfDays q;
     workingHours := workingHours q;
     foodResources := foodResources q;
     accomResources := accomResources q;
     siteDistance := siteDistance q;
     usage := usage q;
     riskFactor := riskFactor q;
     extraCharge := extraCharge q;
     incidentalCharges := incidentalCharges q;
     otherFactorsCharge := otherFactorsCharge q;
     billing := billing q;
     baseRate := baseRate q;
     includeGst := includeGst q;
     shift := shift q;
     dayNight := dayNight q;
     mobDemob := mobDemob q;
     mobRelaxation := mobRelaxation q;
     runningCostPerKm := runningCostPerKm q;
     version := version q;
     createdAt := createdAt q;
     updatedAt := Some now;
     createdBy := createdBy q;
     status := status q;
     totalRent := totalRent q;
     leadId := leadId q;
     customerId := customerId q;
     otherFactors := otherFactors q;
     dealType := dealType q;
     sundayWorking := sundayWorking q |}.

(** The contact copied from [deal.customer], field by field. *)
Definition contactFrom (customer : Contact.t) : Contact.t :=
  {| Contact.name := Contact.name customer;
     Contact.email := Contact.email customer;
     Contact.phone := Contact.phone customer;
     Contact.company := Contact.company customer;
     Contact.address := Contact.address customer;
     Contact.designation := Contact.designation customer |}.

(** The first step: with a lead on the patch, the deal is read and its
    customer becomes the contact of the patch. *)
Definition refreshContact (quotationData : Quotation.t) (lookup : DealLookup)
  : Completion Quotation.t :=
  if truthyStr (leadId quotationData) then
    match lookup with
    | LookupRejected => Throw (FirebaseError "getDoc")
    | NoDeal => Normal quotationData
    | Deal None => Throw (TypeError "name")
    | Deal (Some customer) =>
        Normal (withContact (Some (contactFrom customer)) quotationData)
    end
  else Normal quotationData.

(** [updateDoc(quotationRef, updateData)] on the collection: the store
    rejects the update of a document that does not exist, and may reject any
    other ([accepted]). *)
Definition updateStored (docIdent : string) (updateData : Quotation.t) (accepted : bool)
    (db : Db) : Completion Db :=
  match findQuotation docIdent db with
  | Some _ =>
      if accepted then
        Normal (mkDb (map (fun snap =>
                             if String.eqb (docId snap) docIdent
                             then mkSnap (docId snap) (mergeDoc updateData (data snap))
                             else snap)
                        (quotations db))
                  (deals db))
      else Throw (FirebaseError "updateDoc")
  | None => Throw (FirebaseError "updateDoc")
  end.

(** What the [getDoc] after the write comes back with: the document as it
    is stored, a snapshot that does not exist (the document is gone by the
    time it is read back), or a rejected read. *)
Inductive ReadBack : Type :=
| Reads
| ReadsMissing
| ReadRejected.

(** [getDoc(quotationRef)] after the write, followed by the [exists()]
    test. *)
Definition readStored (docIdent : string) (readBack : ReadBack) (db : Db)
  : Completion DocSnap :=
  match readBack with
  | Reads =>
      match findQuotation docIdent db with
      | Some updatedDoc => Normal updatedDoc
      | None => Throw (GenericError "Quotation not found")
      end
  | ReadsMissing => Throw (GenericError "Quotation not found")
  | ReadRejected => Throw (FirebaseError "getDoc")
  end.

(** [updateQuotation]. [now] is [new Date().toISOString()]; [lookup],
    [accepted] and [readBack] are the store's answers to the read of the
    deal, to the write and to the read after the write. The [catch] clause
    logs and rethrows; the quotation comes back as it is read back, with its
    identifier. A failure of the read-back comes after the write, which
    stays in the store. *)
Definition updateQuotation (docIdent : string) (quotationData : Quotation.t) (now : string)
    (lookup : DealLookup) (accepted : bool) (readBack : ReadBack) (db : Db)
  : Run Quotation.t :=
  match refreshContact quotationData lookup with
  | Throw e => mkRun (Throw e) db [Pricing.mkLog "Error updating quotation:" e]
  | Normal quotationData =>
      let updateData := withUpdatedAt now quotationData in
      match updateStored docIdent updateData accepted db with
      | Throw e => mkRun (Throw e) db [Pricing.mkLog "Error updating quotation:" e]
      | Normal db' =>
          match readStored docIdent readBack db' with
          | Normal updatedDoc => mkRun (Normal (rawEntry updatedDoc)) db' []
          | Throw e => mkRun (Throw e) db' [Pricing.mkLog "Error updating quotation:" e]
          end
      end
  end.

End Update.

(** ** The assistant forwarding endpoint: [handleAssistantRequest] *)

Module AssistantApi.

Import Api.
Local Open Scope string_scope.

(** The request forwarded to the agent. *)
Record Payload : Type := mkPayload {
  message : JsVal;
  user_id : JsVal;
  session_id : option JsVal
}.

(** What [axios.post] comes back with: the parsed response data, or a
    rejection carrying the message of its error. *)
Inductive AgentReply : Type :=
| Resolves (data : JsVal)
| Rejects (reason : string).

(** [res.status(code).json(body)]; plain [res.json(body)] answers 200. *)
Record Response : Type := mkResponse { status : nat; body : JsVal }.

Definition failure (details : string) : Response :=
  mkResponse 500
    (JObj (<["error" := JStr "Failed to process request"]>
           (<["details" := JStr details]> ∅))).

(** [handleAssistantRequest]: the response, and the payloads that went out to
    the agent. Destructuring a body that is [undefined] or [null] throws a
    TypeError inside the [try] block; [engineMessage] is the text the engine
    gives that error. *)
Definition handleAssistantRequest (reqBody : option JsVal) (engineMessage : string)
    (agent : Payload -> AgentReply) : Response * list Payload :=
  match reqBody with
  | None | Some JNull => (failure engineMessage, [])
  | Some b =>
      let message := getProp b "message" in
      let user_id := getProp b "user_id" in
      let session_id := getProp b "session_id" in
      if negb (truthy message) then
        (mkResponse 400 (JObj {[ "error" := JStr "Message is required" ]}), [])
      else
        let requestPayload :=
          {| message := default JNull message;
             user_id := if truthy user_id then default JNull user_id else JStr "api_user";
             session_id := session_id |} in
        match agent requestPayload with
        | Resolves data => (mkResponse 200 data, [requestPayload])
        | Rejects reason => (failure reason, [requestPayload])
        end
  end.

End AssistantApi.

(** ** The chat service: [assistantService]

    The service is modelled on its state (session map, [localStorage],
    message collection) and on the requests it sends; what it prints with
    [console.log] and [console.error] is left out of the state. *)

Module AssistantService.

Import Api.
Local Open Scope string_scope.

(** An item of [localStorage]: a JSON text, kept as the value it parses to,
    or a text that is not JSON. *)
Inductive Stored : Type :=
| Json (v : JsVal)
| Malformed (raw : string).

(** What [JSON.parse] reads from the text [JSON.stringify] renders a value
    to: [-0] is rendered 0, a number that is not finite is rendered [null],
    a [Date] is rendered as its ISO string. *)
Fixpoint jsonCopy (v : JsVal) : JsVal :=
  match v with
  | JNull => JNull
  | JBool b => JBool b
  | JNum x =>
      if PrimFloat.is_finite x
      then (if PrimFloat.is_zero x then JNum 0%float else JNum x)
      else JNull
  | JStr s => JStr s
  | JDate iso => JStr iso
  | JArr elems => JArr (map jsonCopy elems)
  | JObj props => JObj (jsonCopy <$> props)
  end.

(** A document of the [assistant_messages] collection. *)
Record MessageDoc : Type := mkMessageDoc {
  role : string;
  content : JsVal;
  timestamp : string;
  userId : string;
  sessionId : option JsVal
}.

(** The state the service works on: the [_sessionIds] map, the browser's
    [localStorage], and the message collection, oldest first. *)
Record State : Type := mkState {
  sessionIds : gmap string JsVal;
  localStorage : gmap string Stored;
  messages : list MessageDoc
}.

(** The body of the POST request to the agent. *)
Record Request : Type := mkRequest {
  req_message : string;
  req_user_id : string;
  req_session_id : option JsVal;
  req_crm_access : bool
}.

(** What [fetch] comes back with: a network failure, or a response with its
    [ok] flag and its body parsed as JSON ([None] when it is not JSON). *)
Inductive FetchResult : Type :=
| NetworkFailure
| HttpResponse (ok : bool) (json : option JsVal).

(** What one call meets outside the service, in the order the call meets
    it: the signed-in user ([getUserId()]), the clock when the user message
    is written, whether the store accepts that write, the agent, whether
    [localStorage.setItem] accepts the session map (it throws when the
    quota is exceeded or storage is disabled), the clock when the assistant
    message is written, and whether the store accepts that write. *)
Record Env : Type := mkEnv {
  authUser : option string;
  clock : string;
  acceptsUserMessage : bool;
  agent : Request -> FetchResult;
  storageAccepts : bool;
  replyClock : string;
  acceptsAssistantMessage : bool
}.

Definition sessionKey : string := "asp-cranes-session-ids".

(** [Object.entries(v)] for a value parsed from JSON, as the map its
    [forEach] builds; [None] is the TypeError on [null]. The characters of a
    string are taken byte by byte. *)
Definition entriesOf (v : JsVal) : option (gmap string JsVal) :=
  match v with
  | JNull => None
  | JObj props => Some props
  | JArr elems => Some (list_to_map (imap (fun i x => (pretty i, x)) elems))
  | JStr s =>
      Some (list_to_map
              (imap (fun i c => (pretty i, JStr (String c EmptyString)))
                 (String.list_ascii_of_string s)))
  | JBool _ | JNum _ | JDate _ => Some ∅
  end.

(** [_loadSessionIds]: every entry of the saved object is set in the map; a
    missing or empty item is skipped, and an item that does not parse, or
    parses to [null], throws into the [catch] clause, which only logs (as
    does a [getItem] that throws, which leaves the state as a missing item
    does). *)
Definition loadSessionIds (s : State) : State :=
  match localStorage s !! sessionKey with
  | Some (Json v) =>
      match entriesOf v with
      | Some entries => mkState (entries ∪ sessionIds s) (localStorage s) (messages s)
      | None => s
      end
  | Some (Malformed _) => s
  | None => s
  end.

(** [_initSessions] *)
Definition initSessions (s : State) : State :=
  if decide (size (sessionIds s) = 0) then loadSessionIds s else s.

(** [specificUserId || getUserId() || 'crm_user'] *)
Definition resolveUser (specificUserId : option string) (e : Env) : string :=
  Js.strOrElse (Quotations.strOr specificUserId (authUser e)) "crm_user".

(** How a call ends: with the agent's answer, or with the one error the
    [catch] clause throws. *)
Inductive Outcome : Type :=
| Resolved (response : JsVal)
| Rejected (reason : string).

Definition genericFailure : Outcome :=
  Rejected "Failed to get response from ASP Cranes Agent".

(** [_sessionIds.set(userId, data.session_id)] *)
Definition rememberSession (user : string) (session : JsVal) (s : State) : State :=
  mkState (<[user := session]> (sessionIds s)) (localStorage s) (messages s).

(** The own properties of the plain object [sessionsObj] once every entry of
    the map has been assigned to it: the assignment
    [sessionsObj[key] = value] with the key "__proto__" reaches the
    prototype setter and creates no property. *)
Definition sessionsObj (ids : gmap string JsVal) : gmap string JsVal :=
  delete "__proto__" ids.

(** [localStorage.setItem(key, JSON.stringify(sessionsObj))], accepted. *)
Definition persistSessions (s : State) : State :=
  mkState (sessionIds s)
    (<[sessionKey := Json (jsonCopy (JObj (sessionsObj (sessionIds s))))]> (localStorage s))
    (messages s).

(** Saving a session: [_sessionIds.set], then the whole map goes to
    [localStorage] as one JSON object. When [setItem] throws
    ([accepted = false]) the map has been set already; the flag tells
    whether the statement completed. *)
Definition saveSession (user : string) (session : JsVal) (accepted : bool) (s : State)
  : State * bool :=
  let s := rememberSession user session s in
  if accepted then (persistSessions s, true) else (s, false).

(** [sendMessage]: how the call ends, the state afterwards, and the requests
    that went out to the agent. Every exception of the [try] block ends in
    the one error of the [catch] clause. *)
Definition sendMessage (message : string) (specificUserId : option string) (e : Env)
    (s0 : State) : Outcome * State * list Request :=
  let s := initSessions s0 in
  let user := resolveUser specificUserId e in
  if negb (acceptsUserMessage e) then (genericFailure, s, [])
  else
    let s := mkState (sessionIds s) (localStorage s)
               (messages s ++ [mkMessageDoc "user" (JStr message) (clock e) user None]) in
    let request := mkRequest message user (sessionIds s !! user) true in
    match agent e request with
    | NetworkFailure => (genericFailure, s, [request])
    | HttpResponse false _ => (genericFailure, s, [request])
    | HttpResponse true None => (genericFailure, s, [request])
    | HttpResponse true (Some JNull) => (genericFailure, s, [request])
    | HttpResponse true (Some data) =>
        let response := getProp data "response" in
        if negb (truthy response) then (genericFailure, s, [request])
        else
          let session := getProp data "session_id" in
          let '(s, saved) :=
            if truthy session
            then saveSession user (default JNull session) (storageAccepts e) s
            else (s, true) in
          if negb saved then (genericFailure, s, [request])
          else if negb (acceptsAssistantMessage e) then (genericFailure, s, [request])
          else
            (Resolved (default JNull response),
             mkState (sessionIds s) (localStorage s)
               (messages s ++ [mkMessageDoc "assistant" (default JNull response)
                                  (replyClock e) user session]),
             [request])
    end.

(** The [response] field of an answer the service can use: an [ok] response
    whose body is JSON, is not [null], and has a truthy [response]. *)
Definition answerOf (r : FetchResult) : option JsVal :=
  match r with
  | HttpResponse true (Some JNull) => None
  | HttpResponse true (Some data) =>
      if truthy (getProp data "response") then getProp data "response" else None
  | _ => None
  end.

(** The [session_id] field of an answer when it is truthy: the answers upon
    which the session map is saved. *)
Definition sessionOf (r : FetchResult) : option JsVal :=
  match r with
  | HttpResponse true (Some data) =>
      if truthy (getProp data "session_id") then getProp data "session_id" else None
  | _ => None
  end.

(** The request a call sends, if it gets that far. *)
Definition requestOf (message : string) (specificUserId : option string) (e : Env)
    (s0 : State) : Request :=
  let user := resolveUser specificUserId e in
  mkRequest message user (sessionIds (initSessions s0) !! user) true.

(** The state once the user message is stored. *)
Definition logged (message : string) (specificUserId : option string) (e : Env)
    (s0 : State) : State :=
  mkState (sessionIds (initSessions s0)) (localStorage s0)
    (messages s0 ++ [mkMessageDoc "user" (JStr message) (clock e)
                       (resolveUser specificUserId e) None]).

(** A stored message as [getRecentMessages] reads it: a field that is absent
    reads [undefined]; [timestamp] is a store timestamp, given by the date
    its [toDate()] returns. *)
Record StoredMessage : Type := mkStoredMessage {
  stored_role : option JsVal;
  stored_content : option JsVal;
  stored_timestamp : option string
}.

Record Message : Type := mkMessage {
  msg_role : option JsVal;
  msg_content : option JsVal;
  msg_timestamp : string
}.

(** The callback of [snapshot.docs.map]: [data.timestamp.toDate()] throws on
    a document without a timestamp. *)
Definition toMessage (d : StoredMessage) : Js.Completion Message :=
  let* t := Js.deref (stored_timestamp d) "toDate" in
  Js.Normal (mkMessage (stored_role d) (stored_content d) t).

(** [docs.map(cb)] with a callback that may throw. *)
Fixpoint mapM {A B} (cb : A -> Js.Completion B) (l : list A) : Js.Completion (list B) :=
  match l with
  | [] => Js.Normal []
  | x :: rest =>
      let* y := cb x in
      let* ys := mapM cb rest in
      Js.Normal (y :: ys)
  end.

(** [getRecentMessages], on what the query returned ([None] when the store
    rejects it): the messages, and the errors logged by the [catch] clause. *)
Definition getRecentMessages (snapshot : option (list StoredMessage))
  : list Message * list Js.Error :=
  match snapshot with
  | None => ([], [Js.FirebaseError "getDocs"])
  | Some docs =>
      match mapM toMessage docs with
      | Js.Normal messages => (rev messages, [])
      | Js.Throw err => ([], [err])
      end
  end.

End AssistantService.

(** ** Further inputs and scenarios *)

Module Scenarios.

Import Js Pricing Pricing.QuotationInputs Examples.
Local Open Scope float_scope.
Local Open Scope string_scope.

Definition withOrderType (o : option string) (q : QuotationInputs.t) : QuotationInputs.t :=
  {| numberOfDays := numberOfDays q; workingHours := workingHours q; shift := shift q;
     usage := usage q; riskFactor := riskFactor q;
     orderType := o;
     selectedEquipment := selectedEquipment q;
     selectedMachines := selectedMachines q; foodResources := foodResources q;
     accomResources := accomResources q; siteDistance := siteDistance q;
     mobDemob := mobDemob q; mobRelaxation := mobRelaxation q;
     runningCostPerKm := runningCostPerKm q; extraCharge := extraCharge q;
     includeGst := includeGst q |}.

Definition withRunningCostPerKm (r : option float) (q : QuotationInputs.t)
  : QuotationInputs.t :=
  {| numberOfDays := numberOfDays q; workingHours := workingHours q; shift := shift q;
     usage := usage q; riskFactor := riskFactor q; orderType := orderType q;
     selectedEquipment := selectedEquipment q;
     selectedMachines := selectedMachines q; foodResources := foodResources q;
     accomResources := accomResources q; siteDistance := siteDistance q;
     mobDemob := mobDemob q; mobRelaxation := mobRelaxation q;
     runningCostPerKm := r;
     extraCharge := extraCharge q;
     includeGst := includeGst q |}.

(** A machine entry whose base rate was never filled in. *)
Definition unpricedCrane : SelectedMachine.t :=
  SelectedMachine.mk (Some "Crane C") None (Some 1) (Some 10).

(** The fleet of [fleetQuote] with an unpriced machine between the two. *)
Definition unpricedFleetQuote : QuotationInputs.t :=
  {| numberOfDays := Some 3; workingHours := Some 8; shift := Some "single";
     usage := Some "normal"; riskFactor := Some "low"; orderType := Some "micro";
     selectedEquipment := Some legacyCrane;
     selectedMachines := Some [Some craneA; Some unpricedCrane; Some craneB];
     foodResources := Some 2; accomResources := Some 1; siteDistance := Some 40;
     mobDemob := Some 5000; mobRelaxation := Some 10; runningCostPerKm := Some 12;
     extraCharge := Some 250; includeGst := Some true |}.

(** The fleet of [fleetQuote] followed by a [null] entry. *)
Definition brokenFleetQuote : QuotationInputs.t :=
  {| numberOfDays := Some 3; workingHours := Some 8; shift := Some "single";
     usage := Some "normal"; riskFactor := Some "low"; orderType := Some "micro";
     selectedEquipment := Some legacyCrane;
     selectedMachines := Some [Some craneA; Some craneB; None];
     foodResources := Some 2; accomResources := Some 1; siteDistance := Some 40;
     mobDemob := Some 5000; mobRelaxation := Some 10; runningCostPerKm := Some 12;
     extraCharge := Some 250; includeGst := Some true |}.

(** A legacy selection priced on a tier its base rates do not have. *)
Definition weeklyQuote : QuotationInputs.t :=
  {| numberOfDays := Some 7; workingHours := Some 8; shift := Some "single";
     usage := Some "normal"; riskFactor := Some "low"; orderType := Some "weekly";
     selectedEquipment := Some legacyCrane; selectedMachines := None;
     foodResources := None; accomResources := None; siteDistance := None;
     mobDemob := None; mobRelaxation := None; runningCostPerKm := None;
     extraCharge := Some 100; includeGst := Some false |}.

End Scenarios.

(** ** Stored documents used to exercise the creation path *)

Module CreationScenarios.

Import Js Quotations Quotations.Quotation Examples Creation.
Local Open Scope float_scope.
Local Open Scope string_scope.

(** A new quotation for lead "lead-7": three days of [craneA], no GST flag,
    and a total the caller filled in by hand. *)
Definition draftQuotation : Quotation.t :=
  Quotation.mk None None (Some "Asha") None (Some [Some craneA]) None None (Some 3)
    (Some 8) None None None None None None None None None None None None None None None
    None None None None None None (Some 1) (Some "lead-7") None None None None.

(** The same quotation for a lead that has no deal document. *)
Definition orphanQuotation : Quotation.t :=
  Quotation.mk None None (Some "Asha") None (Some [Some craneA]) None None (Some 3)
    (Some 8) None None None None None None None None None None None None None None None
    None None None None None None (Some 1) (Some "lead-404") None None None None.

(** A store with one earlier quotation and the deal of lead "lead-7". *)
Definition shopDb : Db :=
  mkDb [bareSnap]
    (<["lead-7" := <["title" := Api.JStr "Tower crane hire"]>
                     (<["value" := Api.JNum 0]> ∅)]>
     (<["lead-8" := <["value" := Api.JNum 125000]> ∅]> ∅)).

End CreationScenarios.

(** ** How a forwarding handler can end *)

Module ApiOutcomes.

Import Api.
Local Open Scope string_scope.

(** How either handler can end. *)
Inductive Ending (coll : string) (db : Store) : Response * Store -> Prop :=
| Refused (res : Response) :
    status res = 400 -> Ending coll db (res, db)
| Failed (res : Response) :
    status res = 500 -> Ending coll db (res, db)
| Written (res : Response) (newId : string) (doc : gmap string JsVal) :
    status res = 201 ->
    json res !! "id" = Some (JStr newId) ->
    Ending coll db
      (res, <[coll := (default [] (db !! coll) ++ [(newId, doc)])%list]> db).

End ApiOutcomes.

(** ** Chat scenarios *)

Module ChatScenarios.

Import Api AssistantApi AssistantService.
Local Open Scope string_scope.

(** An agent that answers every request with a greeting and the session
    "sess-42". *)
Definition greeter (r : Request) : FetchResult :=
  HttpResponse true
    (Some (JObj (<["response" := JStr "Hello!"]> (<["session_id" := JStr "sess-42"]> ∅)))).

(** An agent that is down. *)
Definition downAgent (r : Request) : FetchResult := HttpResponse false None.

Definition friendlyEnv : Env :=
  mkEnv (Some "asha") "2025-01-01T00:00:00.000Z" true greeter true
    "2025-01-01T00:00:02.000Z" true.

Definition downEnv : Env :=
  mkEnv (Some "asha") "2025-01-01T00:05:00.000Z" true downAgent true
    "2025-01-01T00:05:02.000Z" true.

(** The same agent met by a browser whose storage is full. *)
Definition fullStorageEnv : Env :=
  mkEnv (Some "asha") "2025-01-01T00:00:00.000Z" true greeter false
    "2025-01-01T00:00:02.000Z" true.

Definition freshState : State := mkState ∅ ∅ [].

(** An agent behind the forwarding endpoint that echoes a fixed answer. *)
Definition echoAgent (p : Payload) : AgentReply :=
  Resolves (JObj (<["response" := JStr "Noted."]> ∅)).

Definition chatBody : JsVal :=
  JObj (<["message" := JStr "I need a crane"]> ∅).

(** Three stored messages, newest first, and the same with the middle
    one lacking its timestamp. *)
Definition recentDocs : list StoredMessage :=
  [mkStoredMessage (Some (JStr "assistant")) (Some (JStr "Which day?")) (Some "2025-01-03");
   mkStoredMessage (Some (JStr "user")) (Some (JStr "A crane")) (Some "2025-01-02");
   mkStoredMessage (Some (JStr "assistant")) (Some (JStr "Hello!")) (Some "2025-01-01")].

Definition damagedDocs : list StoredMessage :=
  [mkStoredMessage (Some (JStr "assistant")) (Some (JStr "Which day?")) (Some "2025-01-03");
   mkStoredMessage (Some (JStr "user")) (Some (JStr "A crane")) None;
   mkStoredMessage (Some (JStr "assistant")) (Some (JStr "Hello!")) (Some "2025-01-01")].

End ChatScenarios.

(** ** Update scenarios *)

Module UpdateScenarios.

Import Js Quotations Quotations.Quotation Examples Creation CreationScenarios Update.
Local Open Scope float_scope.
Local Open Scope string_scope.

(** The quotation of [draftQuotation] as it was stored: three days, priced
    48200. *)
Definition storedSnap : DocSnap :=
  mkSnap "q-10" (newQuotation draftQuotation "2025-01-01T00:00:00.000Z" 48200).

Definition quotedDb : Db := mkDb [bareSnap; storedSnap] (deals shopDb).

(** A patch that stretches the rental to ten days, and nothing else. *)
Definition tenDaysPatch : Quotation.t :=
  Quotation.mk None None None None None None None (Some 10) None None None None None None
    None None None None None None None None None None None None None None None None None
    None None None None None.

(** A patch that names the lead and brings a contact of its own. *)
Definition contactPatch : Quotation.t :=
  Quotation.mk None
    (Some (Contact.mk (Some "Typed by hand") None None None None None))
    None None None None None None None None None None None None None None None None None
    None None None None None None None None None None None None (Some "lead-7") None None
    None None.

Definition dealCustomer : Contact.t :=
  Contact.mk (Some "Asha Rao") (Some "asha@example.com") (Some "555-0100")
    (Some "Rao Builders") (Some "12 Dock Road") (Some "Site manager").

End UpdateScenarios.

(** ** Facts about binary64 arithmetic *)

Module FloatFacts.

Import Js.
Local Open Scope float_scope.

(** A number above 25 is neither a zero nor NaN, hence truthy. *)
Lemma gt25_truthy (d : float) : (25 <? d) = true -> truthy d = true.
Proof.
  intros H. unfold truthy, is_zero, is_nan.
  rewrite !FloatAxioms.eqb_spec. rewrite ltb_spec in H.
  change (Prim2SF 25) with (S754_finite false 7036874417766400 (-48)) in H.
  change (Prim2SF 0) with (S754_zero false).
  destruct (Prim2SF d) as [s | s | | s m e]; simpl in *; try discriminate.
  - destruct s; [discriminate | reflexivity].
  - destruct s; try discriminate.
    unfold SFeqb; simpl. rewrite Z.compare_refl, Pos.compare_refl. reflexivity.
Qed.

(** Adding [+0] changes no number but [-0], which becomes [+0]. *)
Lemma add_zero_r (x : float) : x + 0 = x \/ (x = -0 /\ x + 0 = 0).
Proof.
  destruct (Prim2SF x) as [s | s | | s m e] eqn:E.
  - destruct s.
    + right. assert (x = -0) as ->.
      { apply Prim2SF_inj. rewrite E. reflexivity. }
      split; reflexivity.
    + left. apply Prim2SF_inj. rewrite add_spec, E. reflexivity.
  - left. apply Prim2SF_inj. rewrite add_spec, E. reflexivity.
  - left. apply Prim2SF_inj. rewrite add_spec, E. reflexivity.
  - left. apply Prim2SF_inj. rewrite add_spec, E. reflexivity.
Qed.

(** What [x || d] yields is truthy as soon as the default [d] is. *)
Lemma orElse_truthy (x : option float) (d : float) :
  truthy d = true -> truthy (orElse x d) = true.
Proof.
  intros Hd. unfold orElse. destruct x as [v|]; [|exact Hd].
  destruct (truthy v) eqn:E; [exact E | exact Hd].
Qed.

(** A falsy number is replaced by the default. *)
Lemma orElse_falsy (x : option float) (d : float) :
  truthyOpt x = false -> orElse x d = d.
Proof.
  unfold orElse, truthyOpt. destruct x as [v|]; [|reflexivity].
  intros ->. reflexivity.
Qed.

End FloatFacts.

(** ** Properties of the pricing function *)

Module PricingFacts.

Import Js Pricing Pricing.QuotationInputs Examples FloatFacts.
Local Open Scope float_scope.

(** Unfolds the locals of [calculateTotalRent] down to the input fields. *)
Ltac unfold_locals :=
  unfold subtotal, workingCost, usageLoadFactor, foodAccomCost, mobDemobCost,
    riskAdjustment, extraCharges, gstAmount, usagePercentage, riskPercentage,
    distance, trailerCost, mobRelaxationPercent, workingHoursOf, shiftMultiplier,
    effectiveDays, isMonthly, days, hasMachines, machines, legacyBaseRates, tierRate.

(** A [forEach] over entries none of which is [null] is a left fold. *)
Lemma forEach_nonnull {A S} (f : S -> A -> S) (prop : string) (ms : list A) (acc : S) :
  forEach (map Some ms) (fun machine a => let* m := deref machine prop in Normal (f a m)) acc
  = Normal (fold_left f ms acc).
Proof.
  revert acc. induction ms as [|m ms IH]; intros acc; simpl; [reflexivity|].
  apply IH.
Qed.

(** *** Machines take precedence over the legacy selection *)

Lemma subtotal_withEquipment (e : option Equipment.t) (q : QuotationInputs.t) :
  hasMachines q = true -> subtotal (withEquipment e q) = subtotal q.
Proof.
  intros H. unfold hasMachines in H.
  unfold_locals. simpl.
  destruct (selectedMachines q) as [[|m ms]|]; try discriminate.
  reflexivity.
Qed.

Lemma components_withEquipment (e : option Equipment.t) (q : QuotationInputs.t) :
  hasMachines q = true ->
  workingCost (withEquipment e q) = workingCost q
  /\ usageLoadFactor (withEquipment e q) = usageLoadFactor q
  /\ mobDemobCost (withEquipment e q) = mobDemobCost q
  /\ riskAdjustment (withEquipment e q) = riskAdjustment q.
Proof.
  intros H. unfold hasMachines in H.
  split; [|split; [|split]]; unfold_locals; simpl;
    destruct (selectedMachines q) as [[|m ms]|]; try discriminate; reflexivity.
Qed.

(** C1. When [selectedMachines] is non-empty, two inputs that differ only in
    [selectedEquipment] (its base rates included, or its absence) have the
    same working cost, usage load, mobilization cost and risk adjustment,
    and the same returned total: all of them come from the machine list. *)
Theorem machines_take_precedence (q : QuotationInputs.t) (e1 e2 : option Equipment.t) :
  hasMachines q = true ->
  workingCost (withEquipment e1 q) = workingCost (withEquipment e2 q)
  /\ usageLoadFactor (withEquipment e1 q) = usageLoadFactor (withEquipment e2 q)
  /\ mobDemobCost (withEquipment e1 q) = mobDemobCost (withEquipment e2 q)
  /\ riskAdjustment (withEquipment e1 q) = riskAdjustment (withEquipment e2 q)
  /\ calculateTotalRent (Some (withEquipment e1 q))
     = calculateTotalRent (Some (withEquipment e2 q)).
Proof.
  intros H.
  destruct (components_withEquipment e1 q H) as (W1 & U1 & M1 & R1).
  destruct (components_withEquipment e2 q H) as (W2 & U2 & M2 & R2).
  split; [|split; [|split; [|split]]]; try congruence.
  unfold calculateTotalRent, tryBlock. simpl.
  rewrite !subtotal_withEquipment by exact H. reflexivity.
Qed.

Lemma machines_take_precedence_witness :
  hasMachines fleetQuote = true
  /\ calculateTotalRent (Some (withEquipment (Some legacyCrane) fleetQuote))
     = calculateTotalRent (Some (withEquipment None fleetQuote)).
Proof.
  split; [reflexivity|].
  apply (machines_take_precedence fleetQuote (Some legacyCrane) None). reflexivity.
Defined.

(** *** No days, no rent *)

Lemma falsy_days_total_zero (q : QuotationInputs.t) :
  truthyOpt (numberOfDays q) = false -> calculateTotalRent (Some q) = (0, []).
Proof.
  intros H. unfold calculateTotalRent, tryBlock. simpl. rewrite H. reflexivity.
Qed.

(** C8. When [numberOfDays] is absent or is 0 the function returns exactly 0
    (and logs nothing), whatever the other fields hold. *)
Theorem zero_days_total_zero (q : QuotationInputs.t) :
  calculateTotalRent (Some (withDays None q)) = (0, [])
  /\ calculateTotalRent (Some (withDays (Some 0) q)) = (0, []).
Proof.
  split; apply falsy_days_total_zero; reflexivity.
Qed.

(** *** The error path writes to the console *)

(** C7, as stated, fails in its last part: with a [null] entry in the
    machine list the function does return 0, and it writes to the console. *)
Lemma error_path_writes_to_console :
  fst (calculateTotalRent (Some nullMachineQuote)) = 0
  /\ snd (calculateTotalRent (Some nullMachineQuote)) <> [].
Proof.
  split; [reflexivity|]. vm_compute. discriminate.
Qed.

(** *** Working hours *)

Lemma total_depends_on_workingHoursOf (h1 h2 : option float) (q : QuotationInputs.t) :
  orElse h1 8 = orElse h2 8 ->
  calculateTotalRent (Some (withWorkingHours h1 q))
  = calculateTotalRent (Some (withWorkingHours h2 q)).
Proof.
  intros H. unfold calculateTotalRent, tryBlock. simpl.
  destruct (truthyOpt (numberOfDays q)); simpl; [|reflexivity].
  unfold_locals. simpl. rewrite H. reflexivity.
Qed.

(** C10. A falsy [workingHours] (absent, 0, NaN) is replaced by 8, so the
    total for 0 working hours is the total for 8. The replaced value is never
    a zero (nor NaN), and it is the divisor of the hourly rate
    [(baseRate / 26) / workingHours] on the monthly path of both the
    single-equipment and the per-machine branch: neither divides by zero. *)
Theorem workingHours_coerced (q : QuotationInputs.t) (rates : gmap string float)
    (ms : list SelectedMachine.t) :
  calculateTotalRent (Some (withWorkingHours (Some 0) q))
  = calculateTotalRent (Some (withWorkingHours (Some 8) q))
  /\ calculateTotalRent (Some (withWorkingHours None q))
     = calculateTotalRent (Some (withWorkingHours (Some 8) q))
  /\ calculateTotalRent (Some (withWorkingHours (Some nan) q))
     = calculateTotalRent (Some (withWorkingHours (Some 8) q))
  /\ workingHoursOf (withWorkingHours (Some 0) q) = 8
  /\ is_zero (workingHoursOf q) = false
  /\ is_nan (workingHoursOf q) = false
  /\ (isMonthly q = true -> hasMachines q = false -> legacyBaseRates q = Some rates ->
      workingCost q
      = Normal (tierRate rates q / 26 / workingHoursOf q
                * workingHoursOf q * effectiveDays q * shiftMultiplier q))
  /\ (isMonthly q = true -> ms <> [] -> selectedMachines q = Some (map Some ms) ->
      workingCost q
      = Normal (fold_left
                  (fun sum m =>
                     sum + ToNumber (SelectedMachine.baseRate m) / 26 / workingHoursOf q
                           * workingHoursOf q * effectiveDays q * shiftMultiplier q
                           * ToNumber (SelectedMachine.quantity m))
                  ms 0)).
Proof.
  pose proof (orElse_truthy (workingHours q) 8 eq_refl) as Ht.
  unfold truthy in Ht. fold (workingHoursOf q) in Ht.
  apply negb_true_iff, orb_false_iff in Ht. destruct Ht as [Hz Hn].
  split; [|split; [|split; [|split; [|split; [|split; [|split]]]]]];
    try (apply total_depends_on_workingHoursOf; reflexivity);
    try reflexivity; try assumption.
  - intros Hm Hh Hr. unfold workingCost. rewrite Hh, Hr.
    unfold rateCost. rewrite Hm. reflexivity.
  - intros Hm Hne Hms. unfold workingCost, hasMachines, machines. rewrite Hms.
    destruct ms as [|m ms]; [contradiction|]. cbn [map default].
    unfold rateCost. rewrite Hm.
    apply (forEach_nonnull
             (fun sum m => sum + ToNumber (SelectedMachine.baseRate m) / 26 / workingHoursOf q
                                 * workingHoursOf q * effectiveDays q * shiftMultiplier q
                                 * ToNumber (SelectedMachine.quantity m))
             "baseRate" (m :: ms) 0).
Qed.

Lemma workingHours_coerced_witness :
  is_zero (workingHoursOf monthlyQuote) = false
  /\ workingCost monthlyQuote = Normal 260000
  /\ workingCost (withDays (Some 30) fleetQuote) = Normal 3500.
Proof.
  pose proof (workingHours_coerced monthlyQuote
                (<["micro" := 1200]> (<["small" := 1000]> (<["monthly" := 260000]>
                  (<["yearly" := 240000]> ∅)))) [])
    as (_ & _ & _ & _ & Hz & _ & Hsingle & _).
  pose proof (workingHours_coerced (withDays (Some 30) fleetQuote) ∅ [craneA; craneB])
    as (_ & _ & _ & _ & _ & _ & _ & Hfleet).
  split; [exact Hz|]. split.
  - rewrite (Hsingle eq_refl eq_refl eq_refl). reflexivity.
  - rewrite (Hfleet eq_refl ltac:(discriminate) eq_refl). reflexivity.
Defined.

(** *** Monthly billing *)

Lemma subtotal_monthly (d : float) (q : QuotationInputs.t) :
  (25 <? d) = true ->
  subtotal (withDays (Some d) q) = subtotal (withDays (Some 26) q).
Proof.
  intros H. unfold_locals. simpl. rewrite H. reflexivity.
Qed.

(** C2. Billing is monthly exactly when [numberOfDays > 25]: 25 days are not
    monthly, 26 days are; and for any number of days above 25 the effective
    number of days is 26, so that every cost term and the total are those
    of a 26-day quotation, whatever the actual number of days. *)
Theorem monthly_billing (q : QuotationInputs.t) (d : float) :
  isMonthly (withDays (Some d) q) = (25 <? d)
  /\ isMonthly (withDays (Some 25) q) = false
  /\ isMonthly (withDays (Some 26) q) = true
  /\ effectiveDays (withDays (Some 25) q) = 25
  /\ ((25 <? d) = true ->
      effectiveDays (withDays (Some d) q) = 26
      /\ workingCost (withDays (Some d) q) = workingCost (withDays (Some 26) q)
      /\ foodAccomCost (withDays (Some d) q) = foodAccomCost (withDays (Some 26) q)
      /\ calculateTotalRent (Some (withDays (Some d) q))
         = calculateTotalRent (Some (withDays (Some 26) q))).
Proof.
  split; [reflexivity|]. split; [reflexivity|]. split; [reflexivity|].
  split; [reflexivity|].
  intros H. split; [|split; [|split]].
  - unfold effectiveDays, isMonthly, days. simpl. rewrite H. reflexivity.
  - unfold_locals. simpl. rewrite H. reflexivity.
  - unfold_locals. simpl. rewrite H. reflexivity.
  - unfold calculateTotalRent, tryBlock. simpl.
    rewrite (gt25_truthy d H). simpl.
    rewrite (subtotal_monthly d q H). reflexivity.
Qed.

Lemma monthly_billing_witness :
  (25 <? 31) = true
  /\ calculateTotalRent (Some (withDays (Some 31) fleetQuote))
     = calculateTotalRent (Some (withDays (Some 26) fleetQuote)).
Proof.
  split; [reflexivity|].
  apply (monthly_billing fleetQuote 31). reflexivity.
Defined.

(** *** Mobilization and demobilization *)

(** C3. The mobilization/demobilization component. In single-equipment mode
    it is the round-trip distance cost [distance * runningCostPerKm * 2]
    plus the trailer fee, minus [mobRelaxation] percent of the distance cost
    alone. In per-machine mode each machine contributes its distance cost,
    multiplied by its quantity and reduced by the relaxation, plus the
    trailer fee multiplied by its quantity, and the contributions are
    summed. With distance 100, 10 per km, 50 percent relaxation and no
    trailer fee, single-equipment mode gives exactly 1000. *)
Theorem mobDemob_formula (q : QuotationInputs.t) (ms : list SelectedMachine.t) :
  let dist := orElse (siteDistance q) 0 in
  let fee := orElse (mobDemob q) 0 in
  let relax := orElse (mobRelaxation q) 0 in
  (hasMachines q = false ->
     let distanceCost := dist * orElse (runningCostPerKm q) 0 * 2 in
     mobDemobCost q = Normal (distanceCost + fee - distanceCost * relax / 100))
  /\ (ms <> [] -> selectedMachines q = Some (map Some ms) ->
      mobDemobCost q
      = Normal (fold_left
                  (fun sum m =>
                     let qty := ToNumber (SelectedMachine.quantity m) in
                     let distanceCost :=
                       dist * orElse (SelectedMachine.runningCostPerKm m) 0 * 2 * qty in
                     sum + (distanceCost - distanceCost * relax / 100 + fee * qty))
                  ms 0))
  /\ (hasMachines q = false ->
      siteDistance q = Some 100 -> runningCostPerKm q = Some 10 ->
      mobRelaxation q = Some 50 -> mobDemob q = Some 0 ->
      mobDemobCost q = Normal 1000).
Proof.
  intros dist fee relax. split; [|split].
  - intros H. unfold mobDemobCost. rewrite H. reflexivity.
  - intros Hne Hms. unfold mobDemobCost, hasMachines, machines. rewrite Hms.
    destruct ms as [|m ms]; [contradiction|]. cbn [map default].
    apply (forEach_nonnull
             (fun sum m => sum + machineMobDemobCost (distance q) (trailerCost q)
                                   (mobRelaxationPercent q) m)
             "runningCostPerKm" (m :: ms) 0).
  - intros H Hd Hr Hx Hf. unfold mobDemobCost. rewrite H.
    unfold distance, trailerCost, mobRelaxationPercent. rewrite Hd, Hr, Hx, Hf.
    reflexivity.
Qed.

Lemma mobDemob_formula_witness :
  mobDemobCost mobQuote = Normal 1000
  /\ mobDemobCost fleetQuote = Normal 16440.
Proof.
  split.
  - apply (mobDemob_formula mobQuote []); reflexivity.
  - apply (mobDemob_formula fleetQuote [craneA; craneB]); [discriminate | reflexivity].
Defined.

(** *** Subtotal and GST *)

(** C4, as amended. For an input with a non-zero number of days whose cost
    components are computed, let [sub] be working cost + food/accommodation
    cost + mob-demob cost + risk adjustment + usage load factor + extra
    charge, added in this order. With [includeGst] the total is
    [sub + sub * 0.18], the subtotal plus 18 percent of it, each step
    rounded as binary64 arithmetic does; without it the total is [sub + 0],
    which is [sub] itself (a subtotal of [-0] is returned as [+0]). *)
Theorem total_adds_gst (q : QuotationInputs.t) (working usageLoad mob risk : float) :
  truthyOpt (numberOfDays q) = true ->
  workingCost q = Normal working ->
  usageLoadFactor q = Normal usageLoad ->
  mobDemobCost q = Normal mob ->
  riskAdjustment q = Normal risk ->
  let sub := working + foodAccomCost q + mob + risk + usageLoad + extraCharges q in
  subtotal q = Normal sub
  /\ (includeGst q = Some true ->
      calculateTotalRent (Some q) = (sub + sub * 0.18, []))
  /\ (includeGst q <> Some true ->
      calculateTotalRent (Some q) = (sub + 0, [])
      /\ (sub + 0 = sub \/ (sub = -0 /\ sub + 0 = 0))).
Proof.
  intros Hdays Hw Hu Hm Hr sub.
  assert (Hsub : subtotal q = Normal sub).
  { unfold subtotal. rewrite Hw, Hu, Hm, Hr. reflexivity. }
  split; [exact Hsub|]. split.
  - intros Hg. unfold calculateTotalRent, tryBlock. simpl.
    rewrite Hdays. simpl. rewrite Hsub. simpl.
    unfold gstAmount. rewrite Hg. reflexivity.
  - intros Hg. split; [|apply add_zero_r].
    unfold calculateTotalRent, tryBlock. simpl.
    rewrite Hdays. simpl. rewrite Hsub. simpl.
    unfold gstAmount. destruct (includeGst q) as [[|]|]; try reflexivity.
    contradiction Hg; reflexivity.
Qed.

Lemma total_adds_gst_witness :
  subtotal tenQuote = Normal 10
  /\ calculateTotalRent (Some tenQuote) = (10 + 10 * 0.18, []).
Proof.
  pose proof (total_adds_gst tenQuote 0 0 0 0 eq_refl eq_refl eq_refl eq_refl eq_refl)
    as (Hs & Hg & _).
  split; [exact Hs | exact (Hg eq_refl)].
Defined.

(** C4, as stated, fails: with one day, nothing selected, an extra charge
    of 10 and GST included, the subtotal is 10 and the returned total is
    [10 + 10 * 0.18], which is not the number [10 * 1.18]. *)
Lemma gst_factor_counterexample :
  truthyOpt (numberOfDays tenQuote) = true
  /\ includeGst tenQuote = Some true
  /\ subtotal tenQuote = Normal 10
  /\ (fst (calculateTotalRent (Some tenQuote)) =? 10 * 1.18) = false
  /\ fst (calculateTotalRent (Some tenQuote)) <> 10 * 1.18.
Proof.
  split; [reflexivity|]. split; [reflexivity|]. split; [reflexivity|].
  split; [reflexivity|].
  intros H. apply (f_equal (fun x => x =? 10 * 1.18)) in H.
  vm_compute in H. discriminate H.
Qed.

End PricingFacts.

(** ** Properties of the quotation read paths *)

Module QuotationFacts.

Import Js Quotations Quotations.Quotation Examples.
Local Open Scope string_scope.

(** What [getQuotationById] returns for an existing document has every
    defaulted field defined. *)
Lemma byId_fields_defined (now : string) (snap : DocSnap) (q : Quotation.t) :
  getQuotationById now (Some snap) = Normal (Some q) ->
  is_Some (id q) /\ is_Some (customerContact q) /\ is_Some (customerName q)
  /\ is_Some (selectedEquipment q) /\ is_Some (selectedMachines q)
  /\ is_Some (machineType q) /\ is_Some (orderType q) /\ is_Some (numberOfDays q)
  /\ is_Some (workingHours q) /\ is_Some (foodResources q) /\ is_Some (accomResources q)
  /\ is_Some (siteDistance q) /\ is_Some (usage q) /\ is_Some (riskFactor q)
  /\ is_Some (extraCharge q) /\ is_Some (incidentalCharges q)
  /\ is_Some (otherFactorsCharge q) /\ is_Some (billing q) /\ is_Some (baseRate q)
  /\ is_Some (includeGst q) /\ is_Some (shift q) /\ is_Some (dayNight q)
  /\ is_Some (mobDemob q) /\ is_Some (mobRelaxation q) /\ is_Some (runningCostPerKm q)
  /\ is_Some (version q) /\ is_Some (createdAt q) /\ is_Some (updatedAt q)
  /\ is_Some (createdBy q) /\ is_Some (status q) /\ is_Some (totalRent q)
  /\ is_Some (leadId q) /\ is_Some (customerId q) /\ is_Some (otherFactors q).
Proof.
  unfold getQuotationById, byIdEntry. intros H.
  destruct (equipmentName (data snap)) as [n|e]; simpl in H; [|discriminate].
  injection H as <-. simpl. repeat split; eexists; reflexivity.
Qed.

(** The display name [getQuotationById] computes: the count for more than
    one machine, the machine's own name for exactly one, else the legacy
    name or "Unknown Equipment". *)
Lemma byId_display_name (now : string) (snap : DocSnap) (q : Quotation.t) :
  getQuotationById now (Some snap) = Normal (Some q) ->
  let ms := default [] (selectedMachines (data snap)) in
  (1 < length ms -> displayNameOf q = Some (machinesSelected (length ms)))
  /\ (forall m, ms = [Some m] -> displayNameOf q = Pricing.SelectedMachine.name m)
  /\ (ms = [] ->
      displayNameOf q
      = Some (strOrElse (equipmentField Pricing.Equipment.name (data snap))
                "Unknown Equipment")).
Proof.
  intros H ms. unfold getQuotationById, byIdEntry in H.
  destruct (equipmentName (data snap)) as [n|e] eqn:En; simpl in H; [|discriminate].
  injection H as <-. unfold displayNameOf, equipmentField. simpl.
  unfold equipmentName in En. fold ms in En.
  split; [|split].
  - intros Hlen. destruct (decide (1 < length ms)); [|lia].
    injection En as <-. reflexivity.
  - intros m Hm. rewrite Hm in En.
    repeat case_decide; simpl in *; try lia.
    injection En as <-. reflexivity.
  - intros Hnil. rewrite Hnil in En.
    repeat case_decide; simpl in *; try lia.
    injection En as <-. reflexivity.
Qed.

(** C5, evaluated on a stored document that only names its lead: read by
    id it comes back with its defaults ([status] "draft", [workingHours]
    8, an empty machine list, ...); read by lead or by customer the same
    fields come back [undefined]; the list accessor defaults [status] but
    not [workingHours] or [numberOfDays]. *)
Theorem defaulting_differs_across_read_paths (now : string) :
  (exists q, getQuotationById now (Some bareSnap) = Normal (Some q)
             /\ status q = Some "draft" /\ workingHours q = Some 8%float
             /\ numberOfDays q = Some 0%float /\ selectedMachines q = Some [])
  /\ map status (getQuotationsForLead [bareSnap]) = [None]
  /\ map workingHours (getQuotationsForLead [bareSnap]) = [None]
  /\ map selectedMachines (getQuotationsForLead [bareSnap]) = [None]
  /\ map status (getQuotationsForCustomer [bareSnap]) = [None]
  /\ map workingHours (getQuotationsForCustomer [bareSnap]) = [None]
  /\ map status (getQuotations now [bareSnap]) = [Some "draft"]
  /\ map workingHours (getQuotations now [bareSnap]) = [None]
  /\ map numberOfDays (getQuotations now [bareSnap]) = [None].
Proof.
  split.
  - eexists. split; [reflexivity|]. repeat split.
  - repeat split.
Qed.

(** C6, evaluated on a stored document with exactly one selected machine
    named "Crane A": read by id the display name is "Crane A"; the list
    accessor answers "1 machines selected"; the by-lead and by-customer
    accessors compute no display name at all. *)
Theorem single_machine_display_name (now : string) :
  (exists q, getQuotationById now (Some oneMachineSnap) = Normal (Some q)
             /\ displayNameOf q = Some "Crane A")
  /\ map displayNameOf (getQuotations now [oneMachineSnap]) = [Some "1 machines selected"]
  /\ map displayNameOf (getQuotationsForLead [oneMachineSnap]) = [None]
  /\ map displayNameOf (getQuotationsForCustomer [oneMachineSnap]) = [None].
Proof.
  split.
  - eexists. split; reflexivity.
  - repeat split.
Qed.

End QuotationFacts.

(** ** Properties of the forwarding endpoints *)

Module ApiFacts.

Import Api Examples.
Local Open Scope string_scope.

(** The validation loop stops at the first field, in list order, whose
    value is absent or falsy. *)
Lemma firstMissing_first (fields pre post : list string) (field : string) (body : JsVal) :
  fields = (pre ++ field :: post)%list ->
  Forall (fun g => truthy (getProp body g) = true) pre ->
  truthy (getProp body field) = false ->
  firstMissing fields body = Some field.
Proof.
  intros -> Hpre Hf. induction Hpre as [|g pre Hg _ IH]; simpl.
  - rewrite Hf. reflexivity.
  - rewrite Hg. simpl. exact IH.
Qed.

Lemma firstMissing_none (fields : list string) (body : JsVal) :
  Forall (fun g => truthy (getProp body g) = true) fields ->
  firstMissing fields body = None.
Proof.
  induction 1 as [|g fields Hg _ IH]; simpl; [reflexivity|].
  rewrite Hg. simpl. exact IH.
Qed.

(** Only an object has a truthy property. *)
Lemma truthy_prop_object (body : JsVal) (field : string) :
  truthy (getProp body field) = true -> exists props, body = JObj props.
Proof.
  destruct body; simpl; try discriminate. intros _. eexists; reflexivity.
Qed.

(** After [setDefault] the field holds the default or its former, truthy
    value, and no other field has changed. *)
Lemma setDefault_lookup (field : string) (d : JsVal) (props : gmap string JsVal) :
  setDefault field d props !! field
  = (if truthy (props !! field) then props !! field else Some d)
  /\ forall other, other <> field -> setDefault field d props !! other = props !! other.
Proof.
  unfold setDefault. destruct (truthy (props !! field)); simpl.
  - split; [reflexivity | intros; reflexivity].
  - split; [apply lookup_insert_eq | intros other Hne].
    apply lookup_insert_ne. congruence.
Qed.

Lemma lead_rejects (body : JsVal) (field : string) (now : string)
    (generated : option string) (db : Store) :
  truthy (Some body) = true ->
  firstMissing leadRequiredFields body = Some field ->
  handleLeadSubmission (Some body) now generated db
  = (errorResponse 400 ("Missing required field: " ++ field), db).
Proof.
  intros Hb Hf. unfold handleLeadSubmission. rewrite Hb. simpl negb. cbv iota.
  change (default JNull (Some body)) with body. rewrite Hf. reflexivity.
Qed.

Lemma quotation_rejects (body : JsVal) (field : string) (now : string)
    (generated : option string) (db : Store) :
  truthy (Some body) = true ->
  firstMissing quotationRequiredFields body = Some field ->
  handleQuotationSubmission (Some body) now generated db
  = (errorResponse 400 ("Missing required field: " ++ field), db).
Proof.
  intros Hb Hf. unfold handleQuotationSubmission. rewrite Hb. simpl negb. cbv iota.
  change (default JNull (Some body)) with body. rewrite Hf. reflexivity.
Qed.

(** C9, as amended. A required field counts as missing when it is absent
    or falsy (empty string, 0, [false], [null]). For a request with a body:
    if some required field is missing, the handler answers 400 naming the
    first such field in the fixed order and the store is unchanged; if all
    of them are truthy, the body is an object and the handler hands it to
    the store with the optional fields defaulted, answering 201 with the
    generated identifier when the store accepts the write, and 500 with the
    store unchanged when it rejects it. A request without a body
    ([req.body] is [undefined]), and one whose body is falsy, gets a 400
    saying that the data is required, and writes nothing. *)
Theorem forwarding_validation (body : JsVal) (now : string) (generated : option string)
    (db : Store) :
  (handleLeadSubmission None now generated db
   = (errorResponse 400 "Lead data is required", db)
   /\ handleQuotationSubmission None now generated db
      = (errorResponse 400 "Quotation data is required", db))
  /\ (truthy (Some body) = false ->
     handleLeadSubmission (Some body) now generated db
     = (errorResponse 400 "Lead data is required", db)
     /\ handleQuotationSubmission (Some body) now generated db
        = (errorResponse 400 "Quotation data is required", db))
  /\ (truthy (Some body) = true ->
      (forall pre field post,
          leadRequiredFields = (pre ++ field :: post)%list ->
          Forall (fun g => truthy (getProp body g) = true) pre ->
          truthy (getProp body field) = false ->
          handleLeadSubmission (Some body) now generated db
          = (errorResponse 400 ("Missing required field: " ++ field), db))
      /\ (forall pre field post,
             quotationRequiredFields = (pre ++ field :: post)%list ->
             Forall (fun g => truthy (getProp body g) = true) pre ->
             truthy (getProp body field) = false ->
             handleQuotationSubmission (Some body) now generated db
             = (errorResponse 400 ("Missing required field: " ++ field), db))
      /\ (Forall (fun g => truthy (getProp body g) = true) leadRequiredFields ->
          exists props, body = JObj props
            /\ handleLeadSubmission (Some body) now generated db
               = match generated with
                 | Some newId =>
                     (created "Lead created successfully" newId,
                      <["leads" := (default [] (db !! "leads")
                                    ++ [(newId, leadDocument now props)])%list]> db)
                 | None => (errorResponse 500 "Failed to create lead", db)
                 end)
      /\ (Forall (fun g => truthy (getProp body g) = true) quotationRequiredFields ->
          exists props, body = JObj props
            /\ handleQuotationSubmission (Some body) now generated db
               = match generated with
                 | Some newId =>
                     (created "Quotation created successfully" newId,
                      <["quotations" := (default [] (db !! "quotations")
                                         ++ [(newId, quotationDocument now props)])%list]> db)
                 | None => (errorResponse 500 "Failed to create quotation", db)
                 end)).
Proof.
  split; [split; reflexivity|]. split.
  - intros Hb. unfold handleLeadSubmission, handleQuotationSubmission.
    rewrite Hb. split; reflexivity.
  - intros Hb. split; [|split; [|split]].
    + intros pre field post Hf Hpre Hfield. apply lead_rejects; [exact Hb|].
      eapply firstMissing_first; eassumption.
    + intros pre field post Hf Hpre Hfield. apply quotation_rejects; [exact Hb|].
      eapply firstMissing_first; eassumption.
    + intros Hall. pose proof (firstMissing_none _ _ Hall) as Hnone.
      inversion Hall as [|g fields Hg _]; subst.
      destruct (truthy_prop_object _ _ Hg) as [props ->].
      exists props. split; [reflexivity|].
      unfold handleLeadSubmission. rewrite Hb. simpl negb. cbv iota.
      change (default JNull (Some (JObj props))) with (JObj props). rewrite Hnone.
      destruct generated as [newId|]; reflexivity.
    + intros Hall. pose proof (firstMissing_none _ _ Hall) as Hnone.
      inversion Hall as [|g fields Hg _]; subst.
      destruct (truthy_prop_object _ _ Hg) as [props ->].
      exists props. split; [reflexivity|].
      unfold handleQuotationSubmission. rewrite Hb. simpl negb. cbv iota.
      change (default JNull (Some (JObj props))) with (JObj props). rewrite Hnone.
      destruct generated as [newId|]; reflexivity.
Qed.

Lemma forwarding_validation_witness :
  handleLeadSubmission None "2025-01-01T00:00:00.000Z" (Some "doc-1") ∅
  = (errorResponse 400 "Lead data is required", ∅)
  /\ handleLeadSubmission (Some shortLeadBody) "2025-01-01T00:00:00.000Z" (Some "doc-1") ∅
     = (errorResponse 400 "Missing required field: equipmentNeeded", ∅)
  /\ exists props, leadBody = JObj props
       /\ handleLeadSubmission (Some leadBody) "2025-01-01T00:00:00.000Z" (Some "doc-1") ∅
          = (created "Lead created successfully" "doc-1",
             <["leads" := [("doc-1", leadDocument "2025-01-01T00:00:00.000Z" props)]]> ∅).
Proof.
  split; [|split].
  - apply (proj1 (proj1 (forwarding_validation shortLeadBody "2025-01-01T00:00:00.000Z"
                           (Some "doc-1") ∅))).
  - apply (proj1 (proj2 (proj2 (forwarding_validation shortLeadBody
                                  "2025-01-01T00:00:00.000Z" (Some "doc-1") ∅)) eq_refl)
             ["customerName"] "equipmentNeeded" ["contactInfo"]).
    + reflexivity.
    + repeat constructor.
    + reflexivity.
  - destruct (proj1 (proj2 (proj2 (proj2 (proj2 (forwarding_validation leadBody
                           "2025-01-01T00:00:00.000Z" (Some "doc-1") ∅)) eq_refl))))
      as [props [Hbody Hres]].
    + repeat constructor.
    + exists props. split; [exact Hbody|]. rewrite Hres. reflexivity.
Defined.

(** C9, as stated, fails in its second half: a quotation submission whose
    three required fields are all present, the total price being 0, is
    refused with a 400 naming [totalPrice], and nothing is written. *)
Lemma zero_price_rejected :
  (forall field, In field quotationRequiredFields ->
                 is_Some (getProp zeroPriceBody field))
  /\ handleQuotationSubmission (Some zeroPriceBody) "2025-01-01T00:00:00.000Z"
       (Some "doc-1") ∅
     = (errorResponse 400 "Missing required field: totalPrice", ∅).
Proof.
  split; [|reflexivity].
  intros field [<- | [<- | [<- | []]]]; eexists; reflexivity.
Qed.

End ApiFacts.

(** ** Further properties of the pricing function *)

Module PricingEdgeFacts.

Import Js Pricing Pricing.QuotationInputs Examples Scenarios.
Local Open Scope float_scope.

(** *** NaN absorbs every operation it enters *)

Lemma nan_mul_l (x : float) : nan * x = nan.
Proof. apply Prim2SF_inj. rewrite mul_spec. reflexivity. Qed.

Lemma nan_mul_r (x : float) : x * nan = nan.
Proof.
  apply Prim2SF_inj. rewrite mul_spec.
  change (Prim2SF nan) with S754_nan. destruct (Prim2SF x); reflexivity.
Qed.

Lemma nan_div_l (x : float) : nan / x = nan.
Proof. apply Prim2SF_inj. rewrite div_spec. reflexivity. Qed.

Lemma nan_add_l (x : float) : nan + x = nan.
Proof. apply Prim2SF_inj. rewrite add_spec. reflexivity. Qed.

Lemma nan_add_r (x : float) : x + nan = nan.
Proof.
  apply Prim2SF_inj. rewrite add_spec.
  change (Prim2SF nan) with S754_nan. destruct (Prim2SF x); reflexivity.
Qed.

Lemma rateCost_nan (monthly : bool) (hours eff mult : float) :
  rateCost monthly hours eff mult nan = nan.
Proof.
  unfold rateCost. destruct monthly; rewrite ?nan_div_l, ?nan_mul_l; reflexivity.
Qed.

(** *** The error path *)

(** A loop over the machines stops at the first [null] entry. *)
Lemma forEach_null {A S} (f : S -> A -> S) (prop : string) (ms : list (option A)) (acc : S) :
  In None ms ->
  forEach ms (fun machine a => let* m := deref machine prop in Normal (f a m)) acc
  = Throw (TypeError prop).
Proof.
  revert acc. induction ms as [|[m|] ms IH]; intros acc Hin; simpl.
  - contradiction.
  - apply IH. destruct Hin as [Heq | Hin]; [discriminate | exact Hin].
  - reflexivity.
Qed.

(** Entries none of which is [null] are the image of the machines. *)
Lemma nonnull_entries {A} (ms : list (option A)) :
  ~ In None ms -> exists l, ms = map Some l.
Proof.
  induction ms as [|[m|] ms IH]; intros Hn.
  - exists []. reflexivity.
  - destruct IH as [l ->]; [intros H; apply Hn; right; exact H|].
    exists (m :: l). reflexivity.
  - exfalso. apply Hn. left. reflexivity.
Qed.

(** Over entries none of which is [null] the loop is a left fold. *)
Lemma forEach_fold {A S} (f : S -> A -> S) (prop : string) (l : list A) (acc : S) :
  forEach (map Some l) (fun machine a => let* m := deref machine prop in Normal (f a m)) acc
  = Normal (fold_left f l acc).
Proof.
  revert acc. induction l as [|m l IH]; intros acc; [reflexivity|]. simpl. apply IH.
Qed.

Lemma forEach_completes {A S} (f : S -> A -> S) (prop : string) (ms : list (option A))
    (acc : S) :
  ~ In None ms ->
  exists v, forEach ms (fun machine a => let* m := deref machine prop in Normal (f a m)) acc
            = Normal v.
Proof.
  intros Hn. destruct (nonnull_entries ms Hn) as [l ->].
  eexists. apply forEach_fold.
Qed.

(** When no entry is [null] the four loops complete. *)
Lemma components_complete (q : QuotationInputs.t) :
  ~ In None (machines q) ->
  exists w u m r,
    workingCost q = Normal w /\ usageLoadFactor q = Normal u
    /\ mobDemobCost q = Normal m /\ riskAdjustment q = Normal r.
Proof.
  intros Hn.
  assert (Hw : exists v, workingCost q = Normal v).
  { unfold workingCost. destruct (hasMachines q).
    - apply (forEach_completes (fun a m => a + _)). exact Hn.
    - destruct (legacyBaseRates q); eexists; reflexivity. }
  assert (Hu : exists v, usageLoadFactor q = Normal v).
  { unfold usageLoadFactor. destruct (hasMachines q).
    - apply (forEach_completes (fun a m => a + _)). exact Hn.
    - destruct (legacyBaseRates q); eexists; reflexivity. }
  assert (Hm : exists v, mobDemobCost q = Normal v).
  { unfold mobDemobCost. destruct (hasMachines q).
    - apply (forEach_completes (fun a m => a + _)). exact Hn.
    - eexists; reflexivity. }
  assert (Hr : exists v, riskAdjustment q = Normal v).
  { unfold riskAdjustment. destruct (hasMachines q).
    - apply (forEach_completes (fun a m => a + _)). exact Hn.
    - destruct (legacyBaseRates q); eexists; reflexivity. }
  destruct Hw as [w Hw], Hu as [u Hu], Hm as [m Hm], Hr as [r Hr].
  exists w, u, m, r. repeat split; assumption.
Qed.

(** X1. With a non-zero number of days, the call ends on its error path exactly
    when the machine list holds a [null] entry, wherever it stands: the whole
    total is then 0 and one line is logged, whatever the entries before it
    are worth; otherwise a total is returned and nothing is logged. *)
Theorem error_path_iff_null_machine (q : QuotationInputs.t) :
  truthyOpt (numberOfDays q) = true ->
  (In None (machines q) ->
     calculateTotalRent (Some q)
     = (0, [mkLog "Error calculating total rent:" (TypeError "baseRate")]))
  /\ (~ In None (machines q) ->
      exists total, calculateTotalRent (Some q) = (total, [])).
Proof.
  intros Hd. unfold calculateTotalRent, tryBlock. simpl. rewrite Hd. simpl.
  split.
  - intros Hin.
    assert (Hw : workingCost q = Throw (TypeError "baseRate")).
    { unfold workingCost, hasMachines. unfold machines in *.
      destruct (selectedMachines q) as [[|m ms]|]; simpl in Hin; try contradiction.
      apply (forEach_null (fun a m => a + _) "baseRate"). exact Hin. }
    unfold subtotal. rewrite Hw. reflexivity.
  - intros Hn. unfold subtotal.
    destruct (components_complete q Hn) as (w & u & m & r & -> & -> & -> & ->).
    simpl. eexists. reflexivity.
Qed.

Lemma error_path_iff_null_machine_witness :
  calculateTotalRent (Some brokenFleetQuote)
  = (0, [mkLog "Error calculating total rent:" (TypeError "baseRate")])
  /\ exists total, calculateTotalRent (Some fleetQuote) = (total, []).
Proof.
  split.
  - apply (error_path_iff_null_machine brokenFleetQuote eq_refl).
    right. right. left. reflexivity.
  - apply (error_path_iff_null_machine fleetQuote eq_refl).
    intros [H | [H | []]]; discriminate H.
Defined.

(** *** What the machine path does not read *)

(** X2. With machines selected, neither the order type (the tier of the legacy
    rates) nor the quotation's own [runningCostPerKm] has any effect on the
    total: rates and per-kilometre costs are the machines' own. *)
Theorem machine_mode_ignores_tier (q : QuotationInputs.t) (o : option string)
    (r : option float) :
  hasMachines q = true ->
  calculateTotalRent (Some (withOrderType o (withRunningCostPerKm r q)))
  = calculateTotalRent (Some q).
Proof.
  intros H. unfold calculateTotalRent, tryBlock. simpl.
  destruct (truthyOpt (numberOfDays q)); simpl; [|reflexivity].
  assert (Hs : subtotal (withOrderType o (withRunningCostPerKm r q)) = subtotal q).
  { unfold hasMachines in H.
    unfold subtotal, workingCost, usageLoadFactor, foodAccomCost, mobDemobCost,
      riskAdjustment, hasMachines, machines. simpl.
    destruct (selectedMachines q) as [[|m ms]|]; try discriminate. reflexivity. }
  rewrite Hs. reflexivity.
Qed.

Lemma machine_mode_ignores_tier_witness :
  calculateTotalRent (Some (withOrderType (Some "yearly"%string)
                              (withRunningCostPerKm (Some 99) fleetQuote)))
  = calculateTotalRent (Some fleetQuote).
Proof.
  apply (machine_mode_ignores_tier fleetQuote (Some "yearly"%string) (Some 99)).
  reflexivity.
Defined.

(** *** Rates that are not there *)

Lemma total_of_nan_working (q : QuotationInputs.t) :
  truthyOpt (numberOfDays q) = true ->
  ~ In None (machines q) ->
  workingCost q = Normal nan ->
  calculateTotalRent (Some q) = (nan, []).
Proof.
  intros Hd Hn Hw. unfold calculateTotalRent, tryBlock. simpl. rewrite Hd. simpl.
  destruct (components_complete q Hn) as (w & u & m & r & Hw' & Hu & Hm & Hr).
  unfold subtotal. rewrite Hw, Hu, Hm, Hr. simpl.
  unfold subtotalOf. rewrite !nan_add_l. reflexivity.
Qed.

(** X3. In single-equipment mode, when the base rates have no entry for the
    order type (or the order type is absent), no error is raised and no zero
    is returned: the total is NaN. *)
Theorem missing_tier_gives_nan (q : QuotationInputs.t) (rates : gmap string float) :
  truthyOpt (numberOfDays q) = true ->
  hasMachines q = false ->
  legacyBaseRates q = Some rates ->
  rates !! default "undefined"%string (orderType q) = None ->
  calculateTotalRent (Some q) = (nan, []).
Proof.
  intros Hd Hh Hr Hk. apply total_of_nan_working; [exact Hd| |].
  - unfold hasMachines in Hh. unfold machines.
    destruct (selectedMachines q) as [[|m ms]|]; try discriminate; intros [].
  - unfold workingCost. rewrite Hh, Hr. unfold tierRate. rewrite Hk. simpl ToNumber.
    rewrite rateCost_nan. reflexivity.
Qed.

Lemma missing_tier_gives_nan_witness :
  calculateTotalRent (Some weeklyQuote) = (nan, []).
Proof.
  apply (missing_tier_gives_nan weeklyQuote
           (<["micro"%string := 1200]> (<["small"%string := 1000]>
             (<["monthly"%string := 260000]> (<["yearly"%string := 240000]> ∅)))));
    reflexivity.
Defined.

(** A sum that has met NaN stays NaN. *)
Lemma fold_nan {A} (g : A -> float) (ms : list A) :
  fold_left (fun sum m => sum + g m) ms nan = nan.
Proof.
  induction ms as [|m ms IH]; simpl; [reflexivity|].
  rewrite nan_add_l. exact IH.
Qed.

Lemma fold_meets_nan {A} (g : A -> float) (ms : list A) (bad : A) (acc : float) :
  In bad ms -> g bad = nan ->
  fold_left (fun sum m => sum + g m) ms acc = nan.
Proof.
  revert acc. induction ms as [|m ms IH]; intros acc Hin Hbad; [contradiction|].
  simpl. destruct Hin as [-> | Hin].
  - rewrite Hbad, nan_add_r. apply fold_nan.
  - apply IH; assumption.
Qed.

(** X4. In per-machine mode, one machine without a base rate, anywhere in the
    list, turns the whole total into NaN, whatever the other machines are
    worth. *)
Theorem unpriced_machine_gives_nan (q : QuotationInputs.t) (ms : list SelectedMachine.t)
    (bad : SelectedMachine.t) :
  truthyOpt (numberOfDays q) = true ->
  selectedMachines q = Some (map Some ms) ->
  In bad ms ->
  SelectedMachine.baseRate bad = None ->
  calculateTotalRent (Some q) = (nan, []).
Proof.
  intros Hd Hms Hin Hbad.
  assert (Hne : ms <> []) by (intros ->; contradiction).
  apply total_of_nan_working; [exact Hd| |].
  - unfold machines. rewrite Hms. simpl. intros H. apply in_map_iff in H.
    destruct H as [x [Hx _]]. discriminate.
  - unfold workingCost, hasMachines, machines. rewrite Hms.
    destruct ms as [|m0 ms0]; [contradiction Hne; reflexivity|]. cbn [map default].
    etransitivity.
    { apply (forEach_fold
               (fun sum m =>
                  sum + rateCost (isMonthly q) (workingHoursOf q) (effectiveDays q)
                          (shiftMultiplier q) (ToNumber (SelectedMachine.baseRate m))
                        * ToNumber (SelectedMachine.quantity m))
               "baseRate" (m0 :: ms0) 0). }
    f_equal.
    apply (fold_meets_nan
             (fun m => rateCost (isMonthly q) (workingHoursOf q) (effectiveDays q)
                         (shiftMultiplier q) (ToNumber (SelectedMachine.baseRate m))
                       * ToNumber (SelectedMachine.quantity m))
             (m0 :: ms0) bad 0 Hin).
    rewrite Hbad. simpl ToNumber. rewrite rateCost_nan, nan_mul_l. reflexivity.
Qed.

Lemma unpriced_machine_gives_nan_witness :
  calculateTotalRent (Some unpricedFleetQuote) = (nan, []).
Proof.
  apply (unpriced_machine_gives_nan unpricedFleetQuote [craneA; unpricedCrane; craneB]
           unpricedCrane); try reflexivity.
  right. left. reflexivity.
Defined.

End PricingEdgeFacts.

(** ** The error path of the pricing function *)

Module PricingErrorFacts.

Import Js Pricing Pricing.QuotationInputs Examples Scenarios PricingEdgeFacts.
Local Open Scope float_scope.

(** A [null] entry in the machine list stops the first loop of the [try]
    block, which reads [baseRate]. *)
Lemma workingCost_null_entry (q : QuotationInputs.t) :
  In None (machines q) -> workingCost q = Throw (TypeError "baseRate").
Proof.
  intros Hin. unfold workingCost, hasMachines. unfold machines in *.
  destruct (selectedMachines q) as [[|m ms]|]; simpl in Hin; try contradiction.
  apply (forEach_null (fun a m => a + _) "baseRate"). exact Hin.
Qed.

(** C7, as amended. [calculateTotalRent] returns a number on every input,
    and the exceptions of its [try] block are exactly these: the argument
    is [null] or [undefined] (the read of [numberOfDays] throws), or the
    number of days is truthy and the machine list holds a [null] entry (the
    read of [baseRate] throws, wherever the entry stands). The call then
    returns exactly 0, not the sum reached so far, and writes one line to
    the error console. On every other input nothing throws and nothing is
    written: the result is 0 when the number of days is falsy, and the
    subtotal of the six terms plus GST otherwise. *)
Theorem calculateTotalRent_swallows_exceptions (input : option QuotationInputs.t) :
  match input with
  | None =>
      tryBlock input = Throw (TypeError "numberOfDays")
      /\ calculateTotalRent input
         = (0, [mkLog "Error calculating total rent:" (TypeError "numberOfDays")])
  | Some q =>
      (truthyOpt (numberOfDays q) = false ->
       tryBlock input = Normal 0 /\ calculateTotalRent input = (0, []))
      /\ (truthyOpt (numberOfDays q) = true -> In None (machines q) ->
          tryBlock input = Throw (TypeError "baseRate")
          /\ calculateTotalRent input
             = (0, [mkLog "Error calculating total rent:" (TypeError "baseRate")]))
      /\ (truthyOpt (numberOfDays q) = true -> ~ In None (machines q) ->
          exists working usageLoad mob risk,
            workingCost q = Normal working
            /\ usageLoadFactor q = Normal usageLoad
            /\ mobDemobCost q = Normal mob
            /\ riskAdjustment q = Normal risk
            /\ calculateTotalRent input
               = (let sub := subtotalOf working (foodAccomCost q) mob risk usageLoad
                               (extraCharges q) in
                  sub + gstAmount q sub, []))
  end
  /\ (snd (calculateTotalRent input) = []
      \/ exists e, tryBlock input = Throw e
                   /\ calculateTotalRent input
                      = (0, [mkLog "Error calculating total rent:" e])).
Proof.
  split.
  - destruct input as [q|]; [|split; reflexivity].
    unfold calculateTotalRent, tryBlock. cbn [deref bind].
    split; [|split].
    + intros Hd. rewrite Hd. split; reflexivity.
    + intros Hd Hin. rewrite Hd. cbn [negb]. unfold subtotal.
      rewrite (workingCost_null_entry q Hin). split; reflexivity.
    + intros Hd Hn. rewrite Hd. cbn [negb]. unfold subtotal.
      destruct (components_complete q Hn) as (w & u & m & r & Hw & Hu & Hm & Hr).
      exists w, u, m, r. rewrite Hw, Hu, Hm, Hr. cbn [bind].
      repeat (split; [reflexivity|]). reflexivity.
  - unfold calculateTotalRent. destruct (tryBlock input) as [total | e].
    + left. reflexivity.
    + right. exists e. split; reflexivity.
Qed.

Lemma calculateTotalRent_swallows_exceptions_witness :
  calculateTotalRent None
  = (0, [mkLog "Error calculating total rent:" (TypeError "numberOfDays")])
  /\ calculateTotalRent (Some brokenFleetQuote)
     = (0, [mkLog "Error calculating total rent:" (TypeError "baseRate")])
  /\ exists working usageLoad mob risk,
       workingCost fleetQuote = Normal working
       /\ usageLoadFactor fleetQuote = Normal usageLoad
       /\ mobDemobCost fleetQuote = Normal mob
       /\ riskAdjustment fleetQuote = Normal risk
       /\ calculateTotalRent (Some fleetQuote)
          = (let sub := subtotalOf working (foodAccomCost fleetQuote) mob risk usageLoad
                          (extraCharges fleetQuote) in
             sub + gstAmount fleetQuote sub, []).
Proof.
  split; [|split].
  - apply (proj2 (proj1 (calculateTotalRent_swallows_exceptions None))).
  - apply (proj1 (proj2 (proj1 (calculateTotalRent_swallows_exceptions
                                  (Some brokenFleetQuote)))) eq_refl).
    right. right. left. reflexivity.
  - apply (proj2 (proj2 (proj1 (calculateTotalRent_swallows_exceptions (Some fleetQuote))))
             eq_refl).
    intros [H | [H | []]]; discriminate H.
Defined.

End PricingErrorFacts.

(** ** Further properties of the quotation read paths *)

Module QuotationReadFacts.

Import Js Quotations Quotations.Quotation Examples.
Local Open Scope string_scope.

Lemma strOrElse_idem (a : option string) (d : string) :
  strOrElse (Some (strOrElse a d)) d = strOrElse a d.
Proof.
  unfold strOrElse. destruct a as [s|].
  - destruct (String.eqb s "") eqn:E.
    + destruct (String.eqb d ""); reflexivity.
    + rewrite E. reflexivity.
  - destruct (String.eqb d ""); reflexivity.
Qed.

Lemma strOrElse_nonempty (a : option string) (d : string) :
  String.eqb d "" = false -> String.eqb (strOrElse a d) "" = false.
Proof.
  intros Hd. unfold strOrElse. destruct a as [s|]; [|exact Hd].
  destruct (String.eqb s "") eqn:E; [exact Hd | exact E].
Qed.

Lemma orElse_idem (x : option float) (d : float) :
  orElse (Some (orElse x d)) d = orElse x d.
Proof.
  unfold orElse. destruct x as [v|].
  - destruct (truthy v) eqn:E.
    + rewrite E. reflexivity.
    + destruct (truthy d); reflexivity.
  - destruct (truthy d); reflexivity.
Qed.

(** *** When reading by id fails *)

Lemma equipmentName_throws_iff (d : Quotation.t) :
  (selectedMachines d = Some [None] -> equipmentName d = Throw (TypeError "name"))
  /\ (selectedMachines d <> Some [None] -> exists n, equipmentName d = Normal n).
Proof.
  unfold equipmentName. split.
  - intros ->. reflexivity.
  - intros Hne. destruct (selectedMachines d) as [[|[m|] [|m' ms]]|]; simpl;
      try (eexists; reflexivity).
    contradiction Hne; reflexivity.
Qed.

(** X5. [getQuotationById] answers [null] for a document that does not exist;
    for one that exists it fails in exactly one case, a machine list that
    consists of a single [null] entry, and otherwise returns a quotation. *)
Theorem byId_fails_iff_single_null_machine (now : string) (snap : DocSnap) :
  getQuotationById now None = Normal None
  /\ (selectedMachines (data snap) = Some [None] ->
      getQuotationById now (Some snap) = Throw (TypeError "name"))
  /\ (selectedMachines (data snap) <> Some [None] ->
      exists q, getQuotationById now (Some snap) = Normal (Some q)).
Proof.
  split; [reflexivity|]. unfold getQuotationById, byIdEntry.
  destruct (equipmentName_throws_iff (data snap)) as [Ht Hn]. split.
  - intros H. rewrite (Ht H). reflexivity.
  - intros H. destruct (Hn H) as [n ->]. simpl. eexists. reflexivity.
Qed.

Lemma byId_fails_iff_single_null_machine_witness :
  getQuotationById "2025-01-01T00:00:00.000Z"
    (Some (mkSnap "q-3" (Quotation.mk None None None None (Some [None]) None None None
                           None None None None None None None None None None None None
                           None None None None None None None None None None None None
                           None None None None)))
  = Throw (TypeError "name")
  /\ exists q, getQuotationById "2025-01-01T00:00:00.000Z" (Some oneMachineSnap)
               = Normal (Some q).
Proof.
  split.
  - apply (byId_fails_iff_single_null_machine "2025-01-01T00:00:00.000Z"
             (mkSnap "q-3" (Quotation.mk None None None None (Some [None]) None None None
                              None None None None None None None None None None None None
                              None None None None None None None None None None None None
                              None None None None))).
    reflexivity.
  - apply (byId_fails_iff_single_null_machine "2025-01-01T00:00:00.000Z" oneMachineSnap).
    discriminate.
Defined.

(** *** Where the list accessor and the by-id accessor agree *)

(** X6. On the identifier, the contact, the machine list, the status, the
    total and the version the list accessor returns what the by-id accessor
    returns, whenever the two are called. A creation or update time that is
    stored (and not empty) is returned as it is by both; one that is missing
    is replaced by each accessor with its own reading of the clock, and
    nothing is said of it here. The [selectedEquipment] object, display
    name included, is the same unless the document has exactly one
    machine. *)
Theorem list_agrees_with_byId (nowList nowId : string) (snap : DocSnap) (q : Quotation.t) :
  getQuotationById nowId (Some snap) = Normal (Some q) ->
  id (listEntry nowList snap) = id q
  /\ customerContact (listEntry nowList snap) = customerContact q
  /\ selectedMachines (listEntry nowList snap) = selectedMachines q
  /\ status (listEntry nowList snap) = status q
  /\ totalRent (listEntry nowList snap) = totalRent q
  /\ version (listEntry nowList snap) = version q
  /\ (truthyStr (createdAt (data snap)) = true ->
      createdAt (listEntry nowList snap) = createdAt (data snap)
      /\ createdAt q = createdAt (data snap))
  /\ (truthyStr (updatedAt (data snap)) = true ->
      updatedAt (listEntry nowList snap) = updatedAt (data snap)
      /\ updatedAt q = updatedAt (data snap))
  /\ (length (default [] (selectedMachines (data snap))) <> 1 ->
      selectedEquipment (listEntry nowList snap) = selectedEquipment q).
Proof.
  intros H. unfold getQuotationById, byIdEntry in H.
  destruct (equipmentName (data snap)) as [n|e] eqn:En; simpl in H; [|discriminate].
  injection H as <-. cbn [listEntry id customerContact selectedMachines status totalRent
                            version createdAt updatedAt selectedEquipment].
  do 6 (split; [reflexivity|]).
  split; [|split].
  - unfold truthyStr, strOrElse. destruct (createdAt (data snap)) as [t|];
      [destruct (String.eqb t "")|]; try discriminate. intros _. split; reflexivity.
  - unfold truthyStr, strOrElse. destruct (updatedAt (data snap)) as [t|];
      [destruct (String.eqb t "")|]; try discriminate. intros _. split; reflexivity.
  - intros Hlen. f_equal. f_equal.
    unfold equipmentName in En. unfold listDisplayName.
    destruct (selectedMachines (data snap)) as [[|m [|m' ms]]|]; simpl in *;
      try (injection En as <-; reflexivity).
    contradiction Hlen; reflexivity.
Qed.

Lemma list_agrees_with_byId_witness :
  (exists q, getQuotationById "2025-01-02T00:00:00.000Z" (Some bareSnap) = Normal (Some q)
             /\ selectedEquipment (listEntry "2025-01-01T12:00:00.000Z" bareSnap)
                = selectedEquipment q)
  /\ (exists q, getQuotationById "2025-01-02T00:00:00.000Z" (Some UpdateScenarios.storedSnap)
                = Normal (Some q)
                /\ createdAt (listEntry "2025-01-01T12:00:00.000Z" UpdateScenarios.storedSnap)
                   = Some "2025-01-01T00:00:00.000Z"
                /\ createdAt q = Some "2025-01-01T00:00:00.000Z").
Proof.
  split; (eexists; split; [reflexivity|]).
  - apply (list_agrees_with_byId "2025-01-01T12:00:00.000Z" "2025-01-02T00:00:00.000Z"
             bareSnap _ eq_refl).
    discriminate.
  - apply (list_agrees_with_byId "2025-01-01T12:00:00.000Z" "2025-01-02T00:00:00.000Z"
             UpdateScenarios.storedSnap _ eq_refl).
    reflexivity.
Defined.

(** *** Reading twice *)

Lemma equipmentName_defaulted (d : Quotation.t) (n : option string) (q : Quotation.t) :
  equipmentName d = Normal n ->
  selectedMachines q = Some (default [] (selectedMachines d)) ->
  selectedEquipment q = Some (equipmentOf d n) ->
  equipmentName q = Normal n.
Proof.
  unfold equipmentName, equipmentField. intros En -> ->. simpl.
  destruct (selectedMachines d) as [[|[m|] [|m' ms]]|]; simpl in *;
    try discriminate; try exact En;
    injection En as <-; rewrite strOrElse_idem; reflexivity.
Qed.

#[local] Arguments strOrElse : simpl never.
#[local] Arguments orElse : simpl never.

(** X7. The defaulting of [getQuotationById] is idempotent: a quotation it
    returned, stored as it is, is read back unchanged, also at a later time
    (the first read's clock text being non-empty, as ISO dates are). *)
Theorem byId_defaulting_idempotent (now later : string) (snap : DocSnap) (newId : string)
    (q : Quotation.t) :
  String.eqb now "" = false ->
  getQuotationById now (Some snap) = Normal (Some q) ->
  getQuotationById later (Some (mkSnap newId q)) = Normal (Some q).
Proof.
  intros Hnow H. unfold getQuotationById, byIdEntry in H.
  destruct (equipmentName (data snap)) as [n|e] eqn:En; simpl in H; [|discriminate].
  injection H as <-.
  unfold getQuotationById, byIdEntry.
  cbn [data]. erewrite equipmentName_defaulted; [|exact En|reflexivity|reflexivity].
  simpl. unfold spreadId, contactOf, equipmentOf, contactField, equipmentField, strOr.
  simpl. unfold truthyStr at 1.
  rewrite (strOrElse_nonempty _ "Unknown" eq_refl). simpl.
  rewrite !strOrElse_idem, !orElse_idem.
  assert (Hc : forall c, strOrElse (Some (strOrElse c now)) later = strOrElse c now).
  { intros c. unfold strOrElse at 1. rewrite (strOrElse_nonempty c now Hnow). reflexivity. }
  rewrite !Hc. reflexivity.
Qed.

Lemma byId_defaulting_idempotent_witness :
  exists q, getQuotationById "2025-01-01T00:00:00.000Z" (Some oneMachineSnap) = Normal (Some q)
            /\ getQuotationById "2025-06-30T12:00:00.000Z" (Some (mkSnap "q-9" q))
               = Normal (Some q).
Proof.
  eexists. split; [reflexivity|].
  apply (byId_defaulting_idempotent "2025-01-01T00:00:00.000Z" "2025-06-30T12:00:00.000Z"
           oneMachineSnap "q-9" _ eq_refl eq_refl).
Defined.

End QuotationReadFacts.

(** ** Properties of quotation creation *)

Module CreationFacts.

Import Js Quotations Quotations.Quotation Creation Examples CreationScenarios.
Local Open Scope string_scope.

Lemma createQuotation_unfold (data : Quotation.t) (timestamp : string)
    (generated : option string) (accepted : bool) (db : Db) :
  createQuotation data timestamp generated accepted db
  = let total := priceOf data in
    let priced := snd (Pricing.calculateTotalRent (Some (inputsOf data))) in
    let doc := newQuotation data timestamp total in
    match addQuotation doc generated db with
    | Throw e => mkRun (Throw e) db (priced ++ [Pricing.mkLog "Error creating quotation:" e])
    | Normal (newId, db1) =>
        if truthyStr (leadId data) then
          match updateDeal (default "" (leadId data)) total timestamp accepted db1 with
          | Throw e =>
              mkRun (Throw e) db1 (priced ++ [Pricing.mkLog "Error creating quotation:" e])
          | Normal db2 => mkRun (Normal (withId newId doc)) db2 priced
          end
        else mkRun (Normal (withId newId doc)) db1 priced
    end.
Proof.
  unfold createQuotation, priceOf.
  destruct (Pricing.calculateTotalRent (Some (inputsOf data))) as [total priced].
  reflexivity.
Qed.

(** X8. When the store accepts both writes, the quotation is appended with the
    computed total (a [totalRent] the caller supplied is overwritten) and both
    timestamps set to the creation time; the deal of the lead gets that same
    total as its value, keeps its other fields, and no other deal changes;
    the caller receives the stored quotation with its new identifier. *)
Theorem createQuotation_writes (data : Quotation.t) (timestamp newId lead : string)
    (deal : gmap string Api.JsVal) (db : Db) :
  leadId data = Some lead ->
  String.eqb lead "" = false ->
  deals db !! lead = Some deal ->
  let run := createQuotation data timestamp (Some newId) true db in
  let doc := newQuotation data timestamp (priceOf data) in
  completion run = Normal (withId newId doc)
  /\ totalRent doc = Some (priceOf data)
  /\ createdAt doc = Some timestamp /\ updatedAt doc = Some timestamp
  /\ quotations (store run) = (quotations db ++ [mkSnap newId doc])%list
  /\ (exists deal', deals (store run) !! lead = Some deal'
                    /\ deal' !! "value" = Some (Api.JNum (priceOf data))
                    /\ deal' !! "updatedAt" = Some (Api.JStr timestamp)
                    /\ forall field, field <> "value" -> field <> "updatedAt" ->
                                     deal' !! field = deal !! field)
  /\ (forall other, other <> lead -> deals (store run) !! other = deals db !! other).
Proof.
  intros Hl Hne Hd run doc. subst run. rewrite createQuotation_unfold.
  cbv zeta. unfold addQuotation. cbv iota beta. unfold truthyStr. rewrite Hl, Hne.
  simpl negb. cbv iota. simpl default. unfold updateDeal. simpl deals. rewrite Hd.
  cbv iota. simpl.
  split; [reflexivity|]. split; [reflexivity|]. split; [reflexivity|].
  split; [reflexivity|]. split; [reflexivity|]. split.
  - eexists. split; [apply lookup_insert_eq|].
    split; [|split].
    + rewrite lookup_insert_ne by discriminate. apply lookup_insert_eq.
    + apply lookup_insert_eq.
    + intros field H1 H2. rewrite !lookup_insert_ne by congruence. reflexivity.
  - intros other Ho. apply lookup_insert_ne. congruence.
Qed.

Lemma createQuotation_writes_witness :
  completion (createQuotation draftQuotation "2025-01-01T00:00:00.000Z" (Some "q-10")
                true shopDb)
  = Normal (withId "q-10" (newQuotation draftQuotation "2025-01-01T00:00:00.000Z" 48200))
  /\ deals (store (createQuotation draftQuotation "2025-01-01T00:00:00.000Z" (Some "q-10")
                     true shopDb)) !! "lead-8"
     = Some (<["value" := Api.JNum 125000]> ∅).
Proof.
  pose proof (createQuotation_writes draftQuotation "2025-01-01T00:00:00.000Z" "q-10"
                "lead-7" _ shopDb eq_refl eq_refl eq_refl)
    as (Hc & _ & _ & _ & _ & _ & Ho).
  split.
  - exact Hc.
  - rewrite (Ho "lead-8") by discriminate. reflexivity.
Defined.

(** Once the store has generated an identifier, the quotation is in the
    store, whatever happens to the deal afterwards. *)
Lemma quotations_after_create (data : Quotation.t) (timestamp newId : string)
    (accepted : bool) (db : Db) :
  quotations (store (createQuotation data timestamp (Some newId) accepted db))
  = (quotations db ++ [mkSnap newId (newQuotation data timestamp (priceOf data))])%list.
Proof.
  rewrite createQuotation_unfold. cbv zeta. unfold addQuotation. cbv iota beta.
  destruct (truthyStr (leadId data)); [|reflexivity].
  unfold updateDeal. simpl deals.
  destruct (deals db !! default "" (leadId data)); [|reflexivity].
  destruct accepted; reflexivity.
Qed.

(** X9. The two writes are not atomic. When the store rejects the quotation,
    nothing is written. When the quotation is written and the update of the
    deal is then rejected, or the lead has no deal document, the call fails
    although the quotation stays in the store, and no deal has changed. *)
Theorem createQuotation_partial_write (data : Quotation.t) (timestamp newId lead : string)
    (accepted : bool) (db : Db) :
  (store (createQuotation data timestamp None accepted db) = db
   /\ completion (createQuotation data timestamp None accepted db)
      = Throw (FirebaseError "addDoc"))
  /\ (leadId data = Some lead -> String.eqb lead "" = false ->
      deals db !! lead = None \/ accepted = false ->
      let run := createQuotation data timestamp (Some newId) accepted db in
      completion run = Throw (FirebaseError "updateDoc")
      /\ quotations (store run)
         = (quotations db ++ [mkSnap newId (newQuotation data timestamp (priceOf data))])%list
      /\ deals (store run) = deals db).
Proof.
  split.
  - rewrite createQuotation_unfold. split; reflexivity.
  - intros Hl Hne Hfail run. subst run. split; [|split].
    + rewrite createQuotation_unfold. cbv zeta. unfold addQuotation. cbv iota beta.
      unfold truthyStr. rewrite Hl, Hne. simpl negb. cbv iota. simpl default.
      unfold updateDeal. simpl deals.
      destruct (deals db !! lead); [|reflexivity].
      destruct Hfail as [Hfail | ->]; [discriminate | reflexivity].
    + apply quotations_after_create.
    + rewrite createQuotation_unfold. cbv zeta. unfold addQuotation. cbv iota beta.
      unfold truthyStr. rewrite Hl, Hne. simpl negb. cbv iota. simpl default.
      unfold updateDeal. simpl deals.
      destruct (deals db !! lead); [|reflexivity].
      destruct Hfail as [Hfail | ->]; [discriminate | reflexivity].
Qed.

Lemma createQuotation_partial_write_witness :
  let run := createQuotation orphanQuotation "2025-01-01T00:00:00.000Z" (Some "q-10")
               true shopDb in
  completion run = Throw (FirebaseError "updateDoc")
  /\ length (quotations (store run)) = 2
  /\ deals (store run) = deals shopDb.
Proof.
  pose proof (proj2 (createQuotation_partial_write orphanQuotation
                       "2025-01-01T00:00:00.000Z" "q-10" "lead-404" true shopDb)
                eq_refl eq_refl (or_introl eq_refl)) as (Hc & Hq & Hd).
  split; [exact Hc|]. split; [|exact Hd].
  cbv zeta in Hq. rewrite Hq. reflexivity.
Defined.

(** *** Reading a quotation that was just created *)

Lemma findQuotation_appended (newId : string) (doc : Quotation.t) (docs : list DocSnap)
    (ds : gmap string (gmap string Api.JsVal)) :
  Forall (fun snap => docId snap <> newId) docs ->
  findQuotation newId (mkDb (docs ++ [mkSnap newId doc]) ds) = Some (mkSnap newId doc).
Proof.
  unfold findQuotation. simpl. induction 1 as [|snap docs Hs _ IH]; simpl.
  - rewrite String.eqb_refl. reflexivity.
  - destruct (String.eqb_spec (docId snap) newId) as [E | _]; [contradiction|].
    exact IH.
Qed.

Lemma created_quotation_found (data : Quotation.t) (timestamp newId : string)
    (accepted : bool) (db : Db) :
  Forall (fun snap => docId snap <> newId) (quotations db) ->
  findQuotation newId (store (createQuotation data timestamp (Some newId) accepted db))
  = Some (mkSnap newId (newQuotation data timestamp (priceOf data))).
Proof.
  intros Hfresh.
  pose proof (quotations_after_create data timestamp newId accepted db) as Hq.
  destruct (store (createQuotation data timestamp (Some newId) accepted db)) as [qs ds].
  simpl in Hq. subst qs. apply findQuotation_appended. exact Hfresh.
Qed.

Lemma new_quotation_by_id (data : Quotation.t) (timestamp newId later : string)
    (total : float) :
  selectedMachines data <> Some [None] ->
  exists q,
    getQuotationById later (Some (mkSnap newId (newQuotation data timestamp total)))
    = Normal (Some q)
    /\ id q = Some (default newId (id data))
    /\ totalRent q = Some (orElse (Some total) 0)
    /\ createdAt q = Some (strOrElse (Some timestamp) later)
    /\ includeGst q = Some (default true (includeGst data)).
Proof.
  intros Hms. unfold getQuotationById, byIdEntry. cbn [Quotations.data].
  destruct (proj2 (QuotationReadFacts.equipmentName_throws_iff
                     (newQuotation data timestamp total)) Hms) as [n ->].
  simpl. eexists. split; [reflexivity|]. repeat split.
Qed.



(** X11. A quotation created without the [includeGst] flag is priced without
    GST (the total is the subtotal plus 0), and yet reads back by id with
    [includeGst] set to [true]. *)
Theorem missing_gst_flag_reads_true (data : Quotation.t) (sub : float)
    (timestamp newId later : string) (accepted : bool) (db : Db) :
  includeGst data = None ->
  truthyOpt (numberOfDays data) = true ->
  Pricing.subtotal (inputsOf data) = Normal sub ->
  Forall (fun snap => docId snap <> newId) (quotations db) ->
  priceOf data = (sub + 0)%float
  /\ exists q,
      getQuotationById later
        (findQuotation newId (store (createQuotation data timestamp (Some newId) accepted db)))
      = Normal (Some q)
      /\ includeGst q = Some true
      /\ totalRent q = Some (orElse (Some (sub + 0)%float) 0).
Proof.
  intros Hg Hd Hs Hfresh.
  assert (Hp : priceOf data = (sub + 0)%float).
  { unfold priceOf, Pricing.calculateTotalRent, Pricing.tryBlock. simpl.
    rewrite Hd. simpl. rewrite Hs. simpl. unfold Pricing.gstAmount. simpl.
    rewrite Hg. reflexivity. }
  split; [exact Hp|].
  assert (Hms : selectedMachines data <> Some [None]).
  { intros Hm. unfold Pricing.subtotal, Pricing.workingCost, Pricing.hasMachines,
      Pricing.machines in Hs. simpl in Hs. rewrite Hm in Hs. discriminate Hs. }
  rewrite (created_quotation_found data timestamp newId accepted db Hfresh).
  destruct (new_quotation_by_id data timestamp newId later (priceOf data) Hms)
    as (q & Hq & _ & Ht & _ & Hi).
  exists q. split; [exact Hq|]. split.
  - rewrite Hi, Hg. reflexivity.
  - rewrite Ht, Hp. reflexivity.
Qed.

Lemma missing_gst_flag_reads_true_witness :
  priceOf draftQuotation = (48200 + 0)%float
  /\ exists q,
      getQuotationById "2025-02-01T00:00:00.000Z"
        (findQuotation "q-10"
           (store (createQuotation draftQuotation "2025-01-01T00:00:00.000Z" (Some "q-10")
                     true shopDb)))
      = Normal (Some q)
      /\ includeGst q = Some true
      /\ totalRent q = Some (orElse (Some (48200 + 0)%float) 0).
Proof.
  apply (missing_gst_flag_reads_true draftQuotation 48200 "2025-01-01T00:00:00.000Z" "q-10"
           "2025-02-01T00:00:00.000Z" true shopDb); try reflexivity.
  repeat constructor. discriminate.
Defined.

End CreationFacts.

(** ** Properties of quotation update *)

Module UpdateFacts.

Import Js Quotations Quotations.Quotation Creation Update Examples CreationScenarios
  UpdateScenarios.
Local Open Scope string_scope.

Lemma findQuotation_docId (docIdent : string) (db : Db) (snap : DocSnap) :
  findQuotation docIdent db = Some snap -> docId snap = docIdent.
Proof.
  unfold findQuotation. intros H. apply find_some in H. destruct H as [_ H].
  apply String.eqb_eq. exact H.
Qed.

(** Looking a document up after an update finds the stored document merged
    with the update. *)
Lemma findQuotation_updated (docIdent : string) (updateData : Quotation.t)
    (docs : list DocSnap) (ds : gmap string (gmap string Api.JsVal)) (old : DocSnap) :
  findQuotation docIdent (mkDb docs ds) = Some old ->
  findQuotation docIdent
    (mkDb (map (fun snap => if String.eqb (docId snap) docIdent
                            then mkSnap (docId snap) (mergeDoc updateData (data snap))
                            else snap) docs) ds)
  = Some (mkSnap (docId old) (mergeDoc updateData (data old))).
Proof.
  unfold findQuotation. simpl. induction docs as [|snap docs IH]; simpl; [discriminate|].
  destruct (String.eqb (docId snap) docIdent) eqn:E; simpl.
  - rewrite E. intros [= <-]. reflexivity.
  - rewrite E. exact IH.
Qed.

(** An accepted write, whatever the read after it comes back with. *)
Lemma updateQuotation_written (docIdent : string) (patch patch' : Quotation.t)
    (now : string) (lookup : DealLookup) (readBack : ReadBack) (db : Db) (old : DocSnap) :
  refreshContact patch lookup = Normal patch' ->
  findQuotation docIdent db = Some old ->
  let written :=
    mkDb (map (fun snap => if String.eqb (docId snap) docIdent
                           then mkSnap (docId snap)
                                  (mergeDoc (withUpdatedAt now patch') (data snap))
                           else snap) (quotations db))
      (deals db) in
  updateStored docIdent (withUpdatedAt now patch') true db = Normal written
  /\ findQuotation docIdent written
     = Some (mkSnap (docId old) (mergeDoc (withUpdatedAt now patch') (data old)))
  /\ updateQuotation docIdent patch now lookup true readBack db
     = match readBack with
       | Reads =>
           mkRun (Normal (rawEntry (mkSnap (docId old)
                                      (mergeDoc (withUpdatedAt now patch') (data old)))))
             written []
       | ReadsMissing =>
           mkRun (Throw (GenericError "Quotation not found")) written
             [Pricing.mkLog "Error updating quotation:" (GenericError "Quotation not found")]
       | ReadRejected =>
           mkRun (Throw (FirebaseError "getDoc")) written
             [Pricing.mkLog "Error updating quotation:" (FirebaseError "getDoc")]
       end.
Proof.
  intros Hr Hf written. subst written.
  unfold updateQuotation. rewrite Hr. unfold updateStored. rewrite Hf.
  destruct db as [docs ds]. cbn [quotations deals].
  pose proof (findQuotation_updated docIdent (withUpdatedAt now patch') docs ds old Hf)
    as Hu.
  split; [reflexivity|]. split; [exact Hu|].
  unfold readStored. rewrite Hu. destruct readBack; reflexivity.
Qed.

Lemma updateQuotation_accepted (docIdent : string) (patch patch' : Quotation.t)
    (now : string) (lookup : DealLookup) (db : Db) (old : DocSnap) :
  refreshContact patch lookup = Normal patch' ->
  findQuotation docIdent db = Some old ->
  updateQuotation docIdent patch now lookup true Reads db
  = mkRun (Normal (rawEntry (mkSnap (docId old)
                               (mergeDoc (withUpdatedAt now patch') (data old)))))
      (mkDb (map (fun snap => if String.eqb (docId snap) docIdent
                              then mkSnap (docId snap)
                                     (mergeDoc (withUpdatedAt now patch') (data snap))
                              else snap) (quotations db))
         (deals db))
      [].
Proof.
  intros Hr Hf.
  exact (proj2 (proj2 (updateQuotation_written docIdent patch patch' now lookup Reads db old
                         Hr Hf))).
Qed.

(** X12. An update never reprices. The stored total changes only when the patch
    itself carries a [totalRent]; a patch that changes what the price
    depends on (the number of days, the machines, ...) leaves the stored
    total as it was. The update time is always set, the creation time kept. *)
Theorem update_never_reprices (docIdent : string) (patch patch' : Quotation.t)
    (now : string) (lookup : DealLookup) (db : Db) (old : DocSnap) :
  refreshContact patch lookup = Normal patch' ->
  findQuotation docIdent db = Some old ->
  exists q,
    completion (updateQuotation docIdent patch now lookup true Reads db) = Normal q
    /\ totalRent q = mergeField (totalRent patch) (totalRent (data old))
    /\ (totalRent patch = None -> totalRent q = totalRent (data old))
    /\ numberOfDays q = mergeField (numberOfDays patch) (numberOfDays (data old))
    /\ updatedAt q = Some now
    /\ (createdAt patch = None -> createdAt q = createdAt (data old)).
Proof.
  intros Hr Hf. rewrite (updateQuotation_accepted _ _ _ _ _ _ _ Hr Hf).
  eexists. split; [reflexivity|]. cbn.
  assert (Ht : totalRent patch' = totalRent patch
               /\ numberOfDays patch' = numberOfDays patch
               /\ createdAt patch' = createdAt patch).
  { unfold refreshContact in Hr. destruct (truthyStr (leadId patch)).
    - destruct lookup as [|[c|]|]; try discriminate; injection Hr as <-; repeat split.
    - injection Hr as <-. repeat split. }
  destruct Ht as (-> & -> & ->).
  split; [reflexivity|]. split; [intros ->; reflexivity|].
  split; [reflexivity|]. split; [reflexivity|]. intros ->. reflexivity.
Qed.

Lemma update_never_reprices_witness :
  exists q,
    completion (updateQuotation "q-10" tenDaysPatch "2025-03-01T00:00:00.000Z" NoDeal true
                  Reads quotedDb) = Normal q
    /\ numberOfDays q = Some 10%float
    /\ totalRent q = Some 48200%float
    /\ priceOf q = 160200%float.
Proof.
  destruct (update_never_reprices "q-10" tenDaysPatch tenDaysPatch
              "2025-03-01T00:00:00.000Z" NoDeal quotedDb storedSnap eq_refl eq_refl)
    as (q & Hq & _ & Ht & Hd & _).
  exists q. split; [exact Hq|]. split; [exact Hd|]. split; [exact (Ht eq_refl)|].
  rewrite (updateQuotation_accepted "q-10" tenDaysPatch tenDaysPatch
             "2025-03-01T00:00:00.000Z" NoDeal quotedDb storedSnap eq_refl eq_refl) in Hq.
  injection Hq as <-. reflexivity.
Defined.

(** X13. When the patch names a lead whose deal has a customer, the stored
    contact becomes that customer, whatever contact the patch brought. *)
Theorem update_takes_contact_from_deal (docIdent : string) (patch : Quotation.t)
    (now : string) (customer : Contact.t) (db : Db) (old : DocSnap) :
  truthyStr (leadId patch) = true ->
  findQuotation docIdent db = Some old ->
  exists q,
    completion (updateQuotation docIdent patch now (Deal (Some customer)) true Reads db)
    = Normal q
    /\ customerContact q = Some customer.
Proof.
  intros Hl Hf.
  assert (Hr : refreshContact patch (Deal (Some customer))
               = Normal (withContact (Some (contactFrom customer)) patch)).
  { unfold refreshContact. rewrite Hl. reflexivity. }
  rewrite (updateQuotation_accepted _ _ _ _ _ _ _ Hr Hf).
  eexists. split; [reflexivity|]. cbn. destruct customer. reflexivity.
Qed.

Lemma update_takes_contact_from_deal_witness :
  exists q,
    completion (updateQuotation "q-10" contactPatch "2025-03-01T00:00:00.000Z"
                  (Deal (Some dealCustomer)) true Reads quotedDb) = Normal q
    /\ customerContact q = Some dealCustomer.
Proof.
  apply (update_takes_contact_from_deal "q-10" contactPatch "2025-03-01T00:00:00.000Z"
           dealCustomer quotedDb storedSnap); reflexivity.
Defined.



End UpdateFacts.

(** ** Further properties of the forwarding endpoints *)

Module ApiStoreFacts.

Import Api ApiOutcomes Examples.
Local Open Scope string_scope.

(** What [setDefault] leaves in a field, and that it leaves the others. *)
Lemma setDefault_field (field : string) (d : JsVal) (props : gmap string JsVal) :
  truthy (Some d) = true -> truthy (setDefault field d props !! field) = true.
Proof.
  intros Hd. unfold setDefault. destruct (truthy (props !! field)) eqn:E; simpl.
  - exact E.
  - rewrite lookup_insert_eq. exact Hd.
Qed.

Lemma setDefault_keeps_truthy (field other : string) (d : JsVal)
    (props : gmap string JsVal) :
  truthy (props !! other) = true -> setDefault field d props !! other = props !! other.
Proof.
  intros Ht. unfold setDefault. destruct (truthy (props !! field)) eqn:E; simpl.
  - reflexivity.
  - apply lookup_insert_ne. intros ->. congruence.
Qed.

Lemma setDefault_other (field other : string) (d : JsVal) (props : gmap string JsVal) :
  other <> field -> setDefault field d props !! other = props !! other.
Proof.
  intros Hne. unfold setDefault. destruct (truthy (props !! field)); simpl.
  - reflexivity.
  - apply lookup_insert_ne. congruence.
Qed.

(** X15. Each handler answers 400, 500 or 201, and the store changes only with a
    201: exactly one document, carrying the identifier named in the answer,
    is then appended to the handler's own collection, and every other
    collection is left as it was. *)
Theorem handlers_write_only_on_201 (reqBody : option JsVal) (now : string)
    (generated : option string) (db : Store) :
  Ending "leads" db (handleLeadSubmission reqBody now generated db)
  /\ Ending "quotations" db (handleQuotationSubmission reqBody now generated db).
Proof.
  split.
  - unfold handleLeadSubmission.
    destruct (truthy reqBody); cbn [negb]; [|apply Refused; reflexivity].
    destruct (firstMissing leadRequiredFields (default JNull reqBody));
      [apply Refused; reflexivity|].
    destruct (default JNull reqBody); try (apply Failed; reflexivity).
    destruct generated as [newId|]; cbn [addDoc]; [|apply Failed; reflexivity].
    apply Written; reflexivity.
  - unfold handleQuotationSubmission.
    destruct (truthy reqBody); cbn [negb]; [|apply Refused; reflexivity].
    destruct (firstMissing quotationRequiredFields (default JNull reqBody));
      [apply Refused; reflexivity|].
    destruct (default JNull reqBody); try (apply Failed; reflexivity).
    destruct generated as [newId|]; cbn [addDoc]; [|apply Failed; reflexivity].
    apply Written; reflexivity.
Qed.

Lemma firstMissing_none_inv (fields : list string) (body : JsVal) :
  firstMissing fields body = None ->
  Forall (fun g => truthy (getProp body g) = true) fields.
Proof.
  induction fields as [|g fields IH]; simpl; intros H; [constructor|].
  destruct (truthy (getProp body g)) eqn:E; simpl in H; [|discriminate].
  constructor; [exact E | apply IH, H].
Qed.

Lemma leadDocument_keeps_truthy (now : string) (props : gmap string JsVal) (f : string) :
  truthy (props !! f) = true -> leadDocument now props !! f = props !! f.
Proof.
  intros H. unfold leadDocument.
  rewrite setDefault_keeps_truthy; rewrite ?setDefault_keeps_truthy;
    rewrite ?setDefault_keeps_truthy; try reflexivity; try exact H.
Qed.

Lemma quotationDocument_keeps_truthy (now : string) (props : gmap string JsVal)
    (f : string) :
  truthy (props !! f) = true -> quotationDocument now props !! f = props !! f.
Proof.
  intros H. unfold quotationDocument.
  rewrite setDefault_keeps_truthy; rewrite ?setDefault_keeps_truthy;
    try reflexivity; try exact H.
Qed.

(** X16. Every document a handler writes is complete: its required fields and
    its defaulted fields are all truthy. It holds every submitted field
    unchanged, except an optional field that was submitted falsy: that one
    holds the default. *)
Theorem stored_documents_are_complete (reqBody : option JsVal) (now : string)
    (generated : option string) (db : Store) :
  (status (fst (handleLeadSubmission reqBody now generated db)) = 201 ->
   exists props newId,
     reqBody = Some (JObj props) /\ generated = Some newId
     /\ snd (handleLeadSubmission reqBody now generated db) !! "leads"
        = Some (default [] (db !! "leads") ++ [(newId, leadDocument now props)])%list
     /\ Forall (fun f => truthy (leadDocument now props !! f) = true)
          (leadRequiredFields ++ ["timestamp"; "status"; "source"])%list
     /\ (forall f, truthy (props !! f) = true -> leadDocument now props !! f = props !! f)
     /\ (forall f, f <> "timestamp" -> f <> "status" -> f <> "source" ->
                   leadDocument now props !! f = props !! f))
  /\ (status (fst (handleQuotationSubmission reqBody now generated db)) = 201 ->
      exists props newId,
        reqBody = Some (JObj props) /\ generated = Some newId
        /\ snd (handleQuotationSubmission reqBody now generated db) !! "quotations"
           = Some (default [] (db !! "quotations")
                   ++ [(newId, quotationDocument now props)])%list
        /\ Forall (fun f => truthy (quotationDocument now props !! f) = true)
             (quotationRequiredFields ++ ["createdAt"; "status"])%list
        /\ (forall f, truthy (props !! f) = true ->
                      quotationDocument now props !! f = props !! f)
        /\ (forall f, f <> "createdAt" -> f <> "status" ->
                      quotationDocument now props !! f = props !! f)).
Proof.
  split.
  - unfold handleLeadSubmission.
    destruct (truthy reqBody) eqn:Hb; cbn [negb]; [|discriminate].
    destruct reqBody as [body|]; [|discriminate]. cbn [default from_option id].
    change (default JNull (Some body)) with body.
    destruct (firstMissing leadRequiredFields body) eqn:Hf; [discriminate|].
    destruct body; try discriminate.
    destruct generated as [newId|]; cbn [addDoc]; [|discriminate].
    intros _. exists props, newId.
    split; [reflexivity|]. split; [reflexivity|]. split; [apply lookup_insert_eq|].
    pose proof (firstMissing_none_inv _ _ Hf) as Hreq. cbn [getProp] in Hreq.
    split; [|split].
    + apply Forall_app. split.
      * eapply Forall_impl; [exact Hreq|]. intros f Ht. cbn beta in Ht.
        rewrite leadDocument_keeps_truthy; exact Ht.
      * unfold leadDocument. repeat constructor.
        -- destruct (truthy (props !! "timestamp")) eqn:E.
           ++ rewrite !setDefault_keeps_truthy; rewrite ?setDefault_keeps_truthy;
                rewrite ?setDefault_keeps_truthy; exact E.
           ++ rewrite !setDefault_other by discriminate.
              apply setDefault_field. reflexivity.
        -- rewrite setDefault_other by discriminate. apply setDefault_field. reflexivity.
        -- apply setDefault_field. reflexivity.
    + intros f. apply leadDocument_keeps_truthy.
    + intros f H1 H2 H3. unfold leadDocument. rewrite !setDefault_other by assumption.
      reflexivity.
  - unfold handleQuotationSubmission.
    destruct (truthy reqBody) eqn:Hb; cbn [negb]; [|discriminate].
    destruct reqBody as [body|]; [|discriminate].
    change (default JNull (Some body)) with body.
    destruct (firstMissing quotationRequiredFields body) eqn:Hf; [discriminate|].
    destruct body; try discriminate.
    destruct generated as [newId|]; cbn [addDoc]; [|discriminate].
    intros _. exists props, newId.
    split; [reflexivity|]. split; [reflexivity|]. split; [apply lookup_insert_eq|].
    pose proof (firstMissing_none_inv _ _ Hf) as Hreq. cbn [getProp] in Hreq.
    split; [|split].
    + apply Forall_app. split.
      * eapply Forall_impl; [exact Hreq|]. intros f Ht. cbn beta in Ht.
        rewrite quotationDocument_keeps_truthy; exact Ht.
      * unfold quotationDocument. repeat constructor.
        -- rewrite setDefault_other by discriminate. apply setDefault_field. reflexivity.
        -- apply setDefault_field. reflexivity.
    + intros f. apply quotationDocument_keeps_truthy.
    + intros f H1 H2. unfold quotationDocument. rewrite !setDefault_other by assumption.
      reflexivity.
Qed.

Lemma stored_documents_are_complete_witness :
  exists props newId,
    Some leadBody = Some (JObj props) /\ Some "doc-1" = Some newId
    /\ Forall (fun f => truthy (leadDocument "2025-01-01T00:00:00.000Z" props !! f) = true)
         (leadRequiredFields ++ ["timestamp"; "status"; "source"])%list.
Proof.
  destruct (proj1 (stored_documents_are_complete (Some leadBody)
                     "2025-01-01T00:00:00.000Z" (Some "doc-1") ∅) eq_refl)
    as (props & newId & Hb & Hg & _ & Hall & _).
  exists props, newId. split; [exact Hb|]. split; [exact Hg | exact Hall].
Defined.

End ApiStoreFacts.

(** ** Properties of the assistant forwarding endpoint *)

Module AssistantApiFacts.

Import Api AssistantApi ChatScenarios.
Local Open Scope string_scope.

(** X17. The agent is contacted exactly when the request has a body with a truthy
    [message], and then exactly once, with a payload whose [message] and
    [user_id] are both truthy ([user_id] falls back to "api_user") and whose
    [session_id] is the submitted one. Without a body the answer is 500,
    with a body and no message it is 400, and otherwise it is the agent's
    data as it came, or a 500 carrying the agent's error message. *)
Theorem agent_contacted_iff_message (reqBody : JsVal) (engineMessage : string)
    (agent : Payload -> AgentReply) :
  handleAssistantRequest None engineMessage agent = (failure engineMessage, [])
  /\ (reqBody = JNull ->
      handleAssistantRequest (Some reqBody) engineMessage agent
      = (failure engineMessage, []))
  /\ (reqBody <> JNull -> truthy (getProp reqBody "message") = false ->
      status (fst (handleAssistantRequest (Some reqBody) engineMessage agent)) = 400
      /\ snd (handleAssistantRequest (Some reqBody) engineMessage agent) = [])
  /\ (reqBody <> JNull -> truthy (getProp reqBody "message") = true ->
      exists p,
        snd (handleAssistantRequest (Some reqBody) engineMessage agent) = [p]
        /\ Some (message p) = getProp reqBody "message"
        /\ truthy (Some (user_id p)) = true
        /\ (truthy (getProp reqBody "user_id") = true ->
            Some (user_id p) = getProp reqBody "user_id")
        /\ (truthy (getProp reqBody "user_id") = false -> user_id p = JStr "api_user")
        /\ session_id p = getProp reqBody "session_id"
        /\ fst (handleAssistantRequest (Some reqBody) engineMessage agent)
           = match agent p with
             | Resolves data => mkResponse 200 data
             | Rejects reason => failure reason
             end).
Proof.
  split; [reflexivity|]. split; [intros ->; reflexivity|]. split.
  - intros Hn Hm. unfold handleAssistantRequest.
    destruct reqBody; try congruence; rewrite Hm; split; reflexivity.
  - intros Hn Hm. unfold handleAssistantRequest.
    destruct reqBody; try congruence; try discriminate Hm.
    rewrite Hm. cbn [negb]. cbn [getProp] in *.
    destruct (props !! "message") as [v|] eqn:Hv; [|discriminate Hm].
    eexists. split; [destruct (agent _); reflexivity|].
    cbn [message user_id session_id].
    split; [reflexivity|].
    destruct (props !! "user_id") as [u|] eqn:Hu.
    + destruct (truthy (Some u)) eqn:E; cbn [default from_option id];
        (split; [first [exact E | reflexivity]|]);
        (split; [intros H; first [reflexivity | discriminate H]|]);
        (split; [intros H; first [reflexivity | discriminate H]|]);
        (split; [reflexivity|]); destruct (agent _); reflexivity.
    + cbn [truthy].
      split; [reflexivity|]. split; [intros H; discriminate H|].
      split; [reflexivity|]. split; [reflexivity|].
      destruct (agent _); reflexivity.
Qed.

Lemma agent_contacted_iff_message_witness :
  exists p,
    snd (handleAssistantRequest (Some chatBody) "TypeError" echoAgent) = [p]
    /\ user_id p = JStr "api_user"
    /\ status (fst (handleAssistantRequest (Some chatBody) "TypeError" echoAgent)) = 200.
Proof.
  destruct (proj2 (proj2 (proj2 (agent_contacted_iff_message chatBody "TypeError"
                                   echoAgent))))
    as (p & Hp & _ & _ & _ & Hu & _ & Hr).
  - discriminate.
  - reflexivity.
  - exists p. split; [exact Hp|]. split; [apply Hu; reflexivity|].
    rewrite Hr. reflexivity.
Defined.

End AssistantApiFacts.

(** ** Properties of the chat service *)

Module AssistantServiceFacts.

Import Api AssistantService ChatScenarios.
Local Open Scope string_scope.

Lemma resolveUser_specific (user : string) (e : Env) :
  String.eqb user "" = false -> resolveUser (Some user) e = user.
Proof.
  intros H. unfold resolveUser, Quotations.strOr, Js.truthyStr, Js.strOrElse.
  rewrite H. simpl. rewrite H. reflexivity.
Qed.

Lemma initSessions_keeps (s : State) :
  localStorage (initSessions s) = localStorage s /\ messages (initSessions s) = messages s.
Proof.
  unfold initSessions, loadSessionIds. case_decide; [|split; reflexivity].
  destruct (localStorage s !! sessionKey) as [[v|raw]|]; try (split; reflexivity).
  destruct (entriesOf v); split; reflexivity.
Qed.

Lemma sendMessage_refused (message : string) (specificUserId : option string) (e : Env)
    (s0 : State) :
  acceptsUserMessage e = false ->
  sendMessage message specificUserId e s0 = (genericFailure, initSessions s0, []).
Proof. intros H. unfold sendMessage. rewrite H. reflexivity. Qed.

Lemma sendMessage_unusable (message : string) (specificUserId : option string) (e : Env)
    (s0 : State) :
  acceptsUserMessage e = true ->
  answerOf (agent e (requestOf message specificUserId e s0)) = None ->
  sendMessage message specificUserId e s0
  = (genericFailure, logged message specificUserId e s0,
     [requestOf message specificUserId e s0]).
Proof.
  intros Hu Ha. unfold sendMessage, logged. rewrite Hu. cbn [negb sessionIds].
  destruct (initSessions_keeps s0) as [-> ->].
  unfold requestOf in Ha. cbv zeta in Ha. unfold requestOf. cbv zeta.
  destruct (agent e _) as [|[|] [data|]]; try reflexivity.
  destruct data; cbn [answerOf getProp] in *; try reflexivity.
  destruct (truthy (props !! "response")) eqn:Hr; cbn [negb]; [|reflexivity].
  destruct (props !! "response"); discriminate.
Qed.

Lemma sendMessage_usable (message : string) (specificUserId : option string) (e : Env)
    (s0 : State) (data : JsVal) :
  acceptsUserMessage e = true ->
  agent e (requestOf message specificUserId e s0) = HttpResponse true (Some data) ->
  data <> JNull ->
  truthy (getProp data "response") = true ->
  sendMessage message specificUserId e s0
  = let user := resolveUser specificUserId e in
    let session := getProp data "session_id" in
    let asked := logged message specificUserId e s0 in
    let request := requestOf message specificUserId e s0 in
    let finish := fun saved : State =>
      if acceptsAssistantMessage e then
        (Resolved (default JNull (getProp data "response")),
         mkState (sessionIds saved) (localStorage saved)
           (messages saved ++ [mkMessageDoc "assistant"
                                 (default JNull (getProp data "response"))
                                 (replyClock e) user session]),
         [request])
      else (genericFailure, saved, [request]) in
    if truthy session then
      if storageAccepts e
      then finish (persistSessions (rememberSession user (default JNull session) asked))
      else (genericFailure, rememberSession user (default JNull session) asked, [request])
    else finish asked.
Proof.
  intros Hu Ha Hn Hr. unfold sendMessage, logged. rewrite Hu. cbn [negb sessionIds].
  destruct (initSessions_keeps s0) as [-> ->].
  unfold requestOf in Ha. cbv zeta in Ha. unfold requestOf. cbv zeta. rewrite Ha.
  destruct data; try congruence; cbn [getProp] in *; try discriminate Hr.
  rewrite Hr. cbn [negb]. unfold saveSession.
  destruct (truthy (props !! "session_id")); [destruct (storageAccepts e)|];
    cbn [negb]; destruct (acceptsAssistantMessage e); reflexivity.
Qed.

(** An answer the service can use, taken apart. *)
Lemma answerOf_usable (r : FetchResult) (response : JsVal) :
  answerOf r = Some response ->
  exists data,
    r = HttpResponse true (Some data) /\ data <> JNull
    /\ truthy (getProp data "response") = true
    /\ getProp data "response" = Some response.
Proof.
  unfold answerOf. intros Ha.
  destruct r as [|[|] [data|]]; try discriminate Ha.
  exists data.
  assert (Hn : data <> JNull) by (intros ->; discriminate Ha).
  destruct data; try contradiction;
    destruct (truthy (getProp _ "response")) eqn:Hr; try discriminate Ha;
    repeat split; try assumption; discriminate.
Qed.

(** X18. A call resolves exactly when the store accepts the user message, the
    agent's answer is usable, [localStorage] accepts the session map if the
    answer brings a session identifier, and the store accepts the assistant
    message; it then resolves with the [response] field of the answer.
    Every other call is rejected with one and the same error. At most one
    request goes out, and none when the user message could not be stored. *)
Theorem sendMessage_outcome (message : string) (specificUserId : option string) (e : Env)
    (s0 : State) :
  let request := requestOf message specificUserId e s0 in
  (sendMessage message specificUserId e s0).1.1
  = (if acceptsUserMessage e then
       match answerOf (agent e request) with
       | Some response =>
           if match sessionOf (agent e request) with
              | Some _ => storageAccepts e
              | None => true
              end && acceptsAssistantMessage e
           then Resolved response
           else genericFailure
       | None => genericFailure
       end
     else genericFailure)
  /\ (sendMessage message specificUserId e s0).2
     = (if acceptsUserMessage e then [request] else []).
Proof.
  intros request. subst request.
  destruct (acceptsUserMessage e) eqn:Hu;
    [|rewrite (sendMessage_refused _ _ _ _ Hu); split; reflexivity].
  destruct (answerOf (agent e (requestOf message specificUserId e s0))) as [v|] eqn:Ha;
    [|rewrite (sendMessage_unusable _ _ _ _ Hu Ha); split; reflexivity].
  destruct (answerOf_usable _ _ Ha) as (data & Hag & Hn & Hr & Hv).
  rewrite (sendMessage_usable _ _ _ _ data Hu Hag Hn Hr). cbv zeta.
  rewrite Hag. cbn [sessionOf]. rewrite Hv. cbn [default].
  destruct (truthy (getProp data "session_id")) eqn:Hs.
  - destruct (getProp data "session_id") as [sid|]; [|discriminate Hs].
    destruct (storageAccepts e); cbn [andb]; [|split; reflexivity].
    destruct (acceptsAssistantMessage e); split; reflexivity.
  - cbn [andb]. destruct (acceptsAssistantMessage e); split; reflexivity.
Qed.

Lemma sendMessage_outcome_witness :
  (sendMessage "Hi" None friendlyEnv freshState).1.1 = Resolved (JStr "Hello!")
  /\ (sendMessage "Hi" None fullStorageEnv freshState).1.1 = genericFailure
  /\ (sendMessage "Hi" None fullStorageEnv freshState).2
     = [mkRequest "Hi" "asha" None true].
Proof.
  split; [|split].
  - apply (proj1 (sendMessage_outcome "Hi" None friendlyEnv freshState)).
  - apply (proj1 (sendMessage_outcome "Hi" None fullStorageEnv freshState)).
  - apply (proj2 (sendMessage_outcome "Hi" None fullStorageEnv freshState)).
Defined.

(** *** The message history *)

(** X19. A call never rewrites the history: it appends to it, nothing when the
    user message is refused by the store, the user message alone when the
    call is rejected later, and the user message followed by the assistant's
    answer when the call resolves. *)
Theorem sendMessage_history (message : string) (specificUserId : option string) (e : Env)
    (s0 : State) :
  let user := resolveUser specificUserId e in
  let asked := mkMessageDoc "user" (JStr message) (clock e) user None in
  let result := sendMessage message specificUserId e s0 in
  (acceptsUserMessage e = false -> messages result.1.2 = messages s0)
  /\ (acceptsUserMessage e = true -> forall reason, result.1.1 = Rejected reason ->
      messages result.1.2 = (messages s0 ++ [asked])%list)
  /\ (forall response, result.1.1 = Resolved response ->
      exists session,
        messages result.1.2
        = (messages s0
             ++ [asked; mkMessageDoc "assistant" response (replyClock e) user session])%list).
Proof.
  intros user asked result. subst result. split; [|split].
  - intros Hu. rewrite (sendMessage_refused _ _ _ _ Hu). apply initSessions_keeps.
  - intros Hu reason.
    destruct (answerOf (agent e (requestOf message specificUserId e s0))) as [v|] eqn:Ha.
    + destruct (answerOf_usable _ _ Ha) as (data & Hag & Hn & Hr & Hv).
      rewrite (sendMessage_usable _ _ _ _ data Hu Hag Hn Hr). cbv zeta.
      destruct (truthy (getProp data "session_id")); [destruct (storageAccepts e)|];
        destruct (acceptsAssistantMessage e); try discriminate; intros _; reflexivity.
    + rewrite (sendMessage_unusable _ _ _ _ Hu Ha). reflexivity.
  - intros response.
    destruct (acceptsUserMessage e) eqn:Hu;
      [|rewrite (sendMessage_refused _ _ _ _ Hu); discriminate].
    destruct (answerOf (agent e (requestOf message specificUserId e s0))) as [v|] eqn:Ha;
      [|rewrite (sendMessage_unusable _ _ _ _ Hu Ha); discriminate].
    destruct (answerOf_usable _ _ Ha) as (data & Hag & Hn & Hr & Hv).
    rewrite (sendMessage_usable _ _ _ _ data Hu Hag Hn Hr). cbv zeta.
    exists (getProp data "session_id").
    destruct (truthy (getProp data "session_id")); [destruct (storageAccepts e)|];
      destruct (acceptsAssistantMessage e); try discriminate;
      cbn [fst snd] in *; match goal with H : Resolved _ = Resolved _ |- _ =>
                                     injection H as <- end;
      cbn [messages persistSessions rememberSession logged];
      rewrite <- app_assoc; reflexivity.
Qed.

Lemma sendMessage_history_witness :
  messages (sendMessage "Hi" None downEnv freshState).1.2
  = [mkMessageDoc "user" (JStr "Hi") "2025-01-01T00:05:00.000Z" "asha" None]
  /\ exists session,
      messages (sendMessage "Hi" None friendlyEnv freshState).1.2
      = [mkMessageDoc "user" (JStr "Hi") "2025-01-01T00:00:00.000Z" "asha" None;
         mkMessageDoc "assistant" (JStr "Hello!") "2025-01-01T00:00:02.000Z" "asha" session].
Proof.
  split.
  - apply (proj1 (proj2 (sendMessage_history "Hi" None downEnv freshState)) eq_refl
             "Failed to get response from ASP Cranes Agent" eq_refl).
  - apply (proj2 (proj2 (sendMessage_history "Hi" None friendlyEnv freshState))
             (JStr "Hello!") eq_refl).
Defined.

(** *** Sessions *)

(** X20. An answer the service cannot use changes neither the session map nor
    what is kept in [localStorage]. *)
Theorem unusable_answer_keeps_sessions (message : string) (specificUserId : option string)
    (e : Env) (s0 : State) :
  acceptsUserMessage e = true ->
  answerOf (agent e (requestOf message specificUserId e s0)) = None ->
  sessionIds (sendMessage message specificUserId e s0).1.2 = sessionIds (initSessions s0)
  /\ localStorage (sendMessage message specificUserId e s0).1.2 = localStorage s0.
Proof.
  intros Hu Ha. rewrite (sendMessage_unusable _ _ _ _ Hu Ha). split; reflexivity.
Qed.

Lemma unusable_answer_keeps_sessions_witness :
  sessionIds (sendMessage "Hi" None downEnv freshState).1.2 = ∅
  /\ localStorage (sendMessage "Hi" None downEnv freshState).1.2 = ∅.
Proof.
  apply (unusable_answer_keeps_sessions "Hi" None downEnv freshState); reflexivity.
Defined.

(** After an answer with a session identifier the map has it, whether or
    not [localStorage] and the store accept what follows; the item in
    [localStorage] is written when [localStorage] accepts it. *)
Lemma saved_session (message user : string) (e : Env) (s0 : State) (data sid : JsVal) :
  String.eqb user "" = false ->
  acceptsUserMessage e = true ->
  agent e (requestOf message (Some user) e s0) = HttpResponse true (Some data) ->
  data <> JNull ->
  truthy (getProp data "response") = true ->
  getProp data "session_id" = Some sid ->
  truthy (Some sid) = true ->
  let s1 := (sendMessage message (Some user) e s0).1.2 in
  sessionIds s1 = <[user := sid]> (sessionIds (initSessions s0))
  /\ (storageAccepts e = true ->
      localStorage s1 !! sessionKey
      = Some (Json (JObj (jsonCopy <$> delete "__proto__" (sessionIds s1)))))
  /\ (storageAccepts e = false -> localStorage s1 = localStorage s0).
Proof.
  intros Hne Hu Hag Hn Hr Hs Ht s1. subst s1.
  rewrite (sendMessage_usable _ _ _ _ data Hu Hag Hn Hr). cbv zeta.
  rewrite Hs, Ht. rewrite (resolveUser_specific user e Hne).
  destruct (storageAccepts e); [destruct (acceptsAssistantMessage e)|];
    cbn [fst snd sessionIds localStorage persistSessions rememberSession logged default];
    (split; [reflexivity|split; intros Hsa; try discriminate Hsa;
                         try (rewrite lookup_insert_eq); reflexivity]).
Qed.


Lemma sendMessage_requests (message : string) (specificUserId : option string) (e : Env)
    (s0 : State) :
  acceptsUserMessage e = true ->
  (sendMessage message specificUserId e s0).2 = [requestOf message specificUserId e s0].
Proof.
  intros Hu.
  destruct (answerOf (agent e (requestOf message specificUserId e s0))) as [v|] eqn:Ha;
    [|rewrite (sendMessage_unusable _ _ _ _ Hu Ha); reflexivity].
  destruct (answerOf_usable _ _ Ha) as (data & Hag & Hn & Hr & Hv).
  rewrite (sendMessage_usable _ _ _ _ data Hu Hag Hn Hr). cbv zeta.
  destruct (truthy (getProp data "session_id")); [destruct (storageAccepts e)|];
    destruct (acceptsAssistantMessage e); reflexivity.
Qed.



(** X22. Sessions survive a page reload, except the one kept under the user
    identifier "__proto__". After an answer with a session identifier that
    [localStorage] accepted, a service that starts again with an empty
    session map and the same [localStorage] reloads on its first call the
    saved sessions as JSON renders them, without the entry of "__proto__".
    The next message of any other user carries the saved identifier to the
    agent (unchanged when it is a string); the next message of the user
    "__proto__" carries none. *)
Theorem session_survives_reload (first next user : string) (e1 e2 : Env) (s0 : State)
    (data sid : JsVal) (history : list MessageDoc) :
  String.eqb user "" = false ->
  acceptsUserMessage e1 = true ->
  agent e1 (requestOf first (Some user) e1 s0) = HttpResponse true (Some data) ->
  data <> JNull ->
  truthy (getProp data "response") = true ->
  getProp data "session_id" = Some sid ->
  truthy (Some sid) = true ->
  storageAccepts e1 = true ->
  acceptsUserMessage e2 = true ->
  let s1 := (sendMessage first (Some user) e1 s0).1.2 in
  let reloaded := mkState ∅ (localStorage s1) history in
  sessionIds (initSessions reloaded) = jsonCopy <$> delete "__proto__" (sessionIds s1)
  /\ (user <> "__proto__" ->
      (sendMessage next (Some user) e2 reloaded).2
      = [mkRequest next user (Some (jsonCopy sid)) true]
      /\ forall text, sid = JStr text ->
           (sendMessage next (Some user) e2 reloaded).2
           = [mkRequest next user (Some sid) true])
  /\ (user = "__proto__" ->
      (sendMessage next (Some user) e2 reloaded).2 = [mkRequest next user None true]).
Proof.
  intros Hne Hu Hag Hn Hr Hs Ht Hsa Hu2 s1 reloaded.
  destruct (saved_session first user e1 s0 data sid Hne Hu Hag Hn Hr Hs Ht)
    as (Hids & Hls & _).
  fold s1 in Hids, Hls. specialize (Hls Hsa).
  assert (Hload : sessionIds (initSessions reloaded)
                  = jsonCopy <$> delete "__proto__" (sessionIds s1)).
  { unfold initSessions, reloaded. cbn [sessionIds]. rewrite map_size_empty.
    case_decide; [|congruence]. unfold loadSessionIds. cbn [localStorage sessionIds].
    rewrite Hls. cbn [entriesOf sessionIds]. apply (right_id_L ∅ (∪)). }
  assert (Hreq : (sendMessage next (Some user) e2 reloaded).2
                 = [mkRequest next user
                      ((jsonCopy <$> delete "__proto__" (sessionIds s1)) !! user) true]).
  { rewrite (sendMessage_requests _ _ _ _ Hu2). unfold requestOf.
    rewrite (resolveUser_specific user e2 Hne). rewrite Hload. reflexivity. }
  split; [exact Hload|]. split.
  - intros Hp.
    assert (Hl : (jsonCopy <$> delete "__proto__" (sessionIds s1)) !! user
                 = Some (jsonCopy sid)).
    { rewrite lookup_fmap, lookup_delete_ne by congruence.
      rewrite Hids, lookup_insert_eq. reflexivity. }
    rewrite Hreq, Hl. split; [reflexivity|]. intros text ->. reflexivity.
  - intros ->. rewrite Hreq, lookup_fmap, lookup_delete_eq. reflexivity.
Qed.

Lemma session_survives_reload_witness :
  (sendMessage "And tomorrow?" (Some "asha") downEnv
     (mkState ∅ (localStorage (sendMessage "Hi" (Some "asha") friendlyEnv freshState).1.2)
        [])).2
  = [mkRequest "And tomorrow?" "asha" (Some (JStr "sess-42")) true]
  /\ (sendMessage "And tomorrow?" (Some "__proto__") downEnv
        (mkState ∅
           (localStorage (sendMessage "Hi" (Some "__proto__") friendlyEnv freshState).1.2)
           [])).2
     = [mkRequest "And tomorrow?" "__proto__" None true].
Proof.
  assert (Hd : JObj (<["response" := JStr "Hello!"]> (<["session_id" := JStr "sess-42"]> ∅))
               <> JNull) by discriminate.
  split.
  - pose proof (session_survives_reload "Hi" "And tomorrow?" "asha" friendlyEnv downEnv
                  freshState _ (JStr "sess-42") []
                  eq_refl eq_refl eq_refl Hd eq_refl eq_refl eq_refl eq_refl eq_refl) as H.
    cbv zeta in H. destruct H as (_ & Hother & _).
    apply (proj2 (Hother ltac:(discriminate)) "sess-42" eq_refl).
  - pose proof (session_survives_reload "Hi" "And tomorrow?" "__proto__" friendlyEnv downEnv
                  freshState _ (JStr "sess-42") []
                  eq_refl eq_refl eq_refl Hd eq_refl eq_refl eq_refl eq_refl eq_refl) as H.
    cbv zeta in H. destruct H as (_ & _ & Hproto).
    apply (Hproto eq_refl).
Defined.

(** *** Recent messages *)

(** The message a stored document with a timestamp is read as. *)
Lemma toMessage_dated (d : StoredMessage) (t : string) :
  stored_timestamp d = Some t ->
  toMessage d = Js.Normal (mkMessage (stored_role d) (stored_content d) t).
Proof. intros H. unfold toMessage. rewrite H. reflexivity. Qed.

Lemma mapM_dated (docs : list StoredMessage) :
  Forall (fun d => is_Some (stored_timestamp d)) docs ->
  exists ms, mapM toMessage docs = Js.Normal ms
             /\ map msg_timestamp ms = map (fun d => default "" (stored_timestamp d)) docs
             /\ map msg_content ms = map stored_content docs
             /\ map msg_role ms = map stored_role docs.
Proof.
  induction 1 as [|d docs [t Ht] _ (ms & Hms & Hts & Hcs & Hrs)]; simpl.
  - exists []. repeat split.
  - rewrite (toMessage_dated d t Ht). simpl. rewrite Hms. simpl.
    eexists. split; [reflexivity|]. simpl. rewrite Hts, Hcs, Hrs, Ht. repeat split.
Qed.

Lemma mapM_undated (docs : list StoredMessage) :
  Exists (fun d => stored_timestamp d = None) docs ->
  mapM toMessage docs = Js.Throw (Js.TypeError "toDate").
Proof.
  induction 1 as [d docs Hd | d docs _ IH]; simpl.
  - unfold toMessage. rewrite Hd. reflexivity.
  - rewrite IH. destruct (toMessage d) as [m|err] eqn:E; simpl; [reflexivity|].
    unfold toMessage in E. destruct (stored_timestamp d); simpl in E; congruence.
Qed.

Lemma StronglySorted_reversed {A} (R : relation A) (l : list A) :
  StronglySorted (fun a b => R b a) l -> StronglySorted R (rev l).
Proof.
  induction 1 as [|x l _ IH Hx]; simpl; [constructor|].
  apply StronglySorted_app_2; [|exact IH|repeat constructor].
  intros a b Ha Hb. apply list_elem_of_singleton in Hb. subst b.
  rewrite Forall_forall in Hx. apply Hx.
  apply list_elem_of_In. apply in_rev. apply list_elem_of_In. exact Ha.
Qed.

(** X23. When every stored message has its timestamp, the messages come back
    complete and in the reverse of the query order: since the query returns
    them newest first, they come back oldest first, whatever order on
    dates is meant. Nothing is logged. *)
Theorem recent_messages_chronological (before : relation string)
    (docs : list StoredMessage) :
  Forall (fun d => is_Some (stored_timestamp d)) docs ->
  StronglySorted (fun a b => before b a)
    (map (fun d => default "" (stored_timestamp d)) docs) ->
  let result := getRecentMessages (Some docs) in
  result.2 = []
  /\ map msg_content result.1 = rev (map stored_content docs)
  /\ map msg_role result.1 = rev (map stored_role docs)
  /\ StronglySorted before (map msg_timestamp result.1).
Proof.
  intros Hall Hsorted result. subst result. unfold getRecentMessages.
  destruct (mapM_dated docs Hall) as (ms & -> & Hts & Hcs & Hrs). cbn [fst snd].
  split; [reflexivity|]. rewrite !map_rev, Hts, Hcs, Hrs.
  split; [reflexivity|]. split; [reflexivity|].
  apply StronglySorted_reversed. exact Hsorted.
Qed.

Lemma recent_messages_chronological_witness :
  map msg_content (getRecentMessages (Some recentDocs)).1
  = [Some (JStr "Hello!"); Some (JStr "A crane"); Some (JStr "Which day?")]
  /\ StronglySorted (fun a b => String.ltb a b = true)
       (map msg_timestamp (getRecentMessages (Some recentDocs)).1).
Proof.
  destruct (recent_messages_chronological (fun a b => String.ltb a b = true) recentDocs)
    as (_ & Hc & _ & Hs).
  - repeat constructor; eexists; reflexivity.
  - repeat constructor.
  - split; [exact Hc | exact Hs].
Defined.

(** X24. One stored message without a timestamp, anywhere in the result of the
    query, makes the whole history come back empty (the error is only
    logged); so does a query the store rejects. The function never throws. *)
Theorem recent_messages_all_or_nothing (docs : list StoredMessage) :
  getRecentMessages None = ([], [Js.FirebaseError "getDocs"])
  /\ (Exists (fun d => stored_timestamp d = None) docs ->
      getRecentMessages (Some docs) = ([], [Js.TypeError "toDate"])).
Proof.
  split; [reflexivity|]. intros H. unfold getRecentMessages.
  rewrite (mapM_undated docs H). reflexivity.
Qed.

Lemma recent_messages_all_or_nothing_witness :
  getRecentMessages (Some damagedDocs) = ([], [Js.TypeError "toDate"]).
Proof.
  apply (recent_messages_all_or_nothing damagedDocs).
  right. left. reflexivity.
Defined.

End AssistantServiceFacts.
